(** * CANopen SDO client (canopen/sdo.py): a shallow embedding

    The SDO client of [canopen/sdo.py] is embedded as executable Rocq
    functions.  Python objects become records, methods become computations
    in a small state-and-exception monad, and the CAN bus together with the
    response queue is an explicit part of the client state. *)

From Stdlib Require Import ZArith List String Ascii Bool Lia.
From Stdlib Require Import DecimalString.
Import ListNotations.
Local Open Scope Z_scope.

(** ** Bytes, slices and [struct] packing *)

(** A [bytes] / [bytearray] value; every element is meant to lie in 0..255. *)
Definition bytes := list Z.

Definition len (b : bytes) : Z := Z.of_nat (List.length b).

(** [b[lo:hi]] for non-negative bounds. *)
Definition slice (lo hi : Z) (b : bytes) : bytes :=
  firstn (Z.to_nat (hi - lo)) (skipn (Z.to_nat lo) b).

(** [bytearray(n)] *)
Definition bytearray (n : nat) : bytes := repeat 0 n.

(** [dst[lo:hi] = src] *)
Definition slice_assign (lo hi : Z) (src dst : bytes) : bytes :=
  firstn (Z.to_nat lo) dst ++ src ++ skipn (Z.to_nat hi) dst.

(** [data.ljust(width, b"\x00")] *)
Definition ljust (width : nat) (data : bytes) : bytes :=
  data ++ repeat 0 (width - List.length data).

(** Little-endian encoding of [v] on [n] bytes, and decoding. *)
Definition le_bytes (n : nat) (v : Z) : bytes :=
  map (fun i => Z.land (Z.shiftr v (8 * Z.of_nat i)) 0xFF) (seq 0 n).

Fixpoint le_value (b : bytes) : Z :=
  match b with
  | [] => 0
  | x :: rest => x + 256 * le_value rest
  end.

Definition in_range (bits : Z) (v : Z) : bool :=
  (0 <=? v) && (v <? 2 ^ bits).

(** ** Exceptions and the method monad *)

Inductive exn : Type :=
| SdoCommunicationError (msg : string)
| SdoAbortedError (code : Z)
| CanError
| StructError        (* struct.error *)
| ValueError
| TypeError
| RuntimeError (msg : string)
| AssertionError (msg : string).

(** The result of running a method: a value, a raised exception, or
    [OutOfFuel] when a [while] loop did not finish within the fuel. *)
Inductive outcome (A : Type) : Type :=
| Return (a : A)
| Raise (e : exn)
| OutOfFuel.
Arguments Return {A} a.
Arguments Raise {A} e.
Arguments OutOfFuel {A}.

Definition M (St A : Type) : Type := St -> outcome A * St.

Definition ret {St A} (a : A) : M St A := fun s => (Return a, s).

Definition raise {St A} (e : exn) : M St A := fun s => (Raise e, s).

Definition out_of_fuel {St A} : M St A := fun s => (OutOfFuel, s).

Definition bind {St A B} (m : M St A) (k : A -> M St B) : M St B :=
  fun s =>
    match m s with
    | (Return a, s') => k a s'
    | (Raise e, s') => (Raise e, s')
    | (OutOfFuel, s') => (OutOfFuel, s')
    end.

(** [try: m except E: handler]; [handler e = None] when [e] is not caught. *)
Definition try_except {St A} (m : M St A) (handler : exn -> option (M St A))
  : M St A :=
  fun s =>
    match m s with
    | (Raise e, s') =>
        match handler e with
        | Some h => h s'
        | None => (Raise e, s')
        end
    | r => r
    end.

Definition get {St} : M St St := fun s => (Return s, s).

Definition modify {St} (f : St -> St) : M St unit := fun s => (Return tt, f s).

Declare Scope py_scope.
Delimit Scope py_scope with py.
Notation "x <- m ;; k" := (bind m (fun x => k))
  (at level 61, m at next level, right associativity) : py_scope.
Notation "m ;; k" := (bind m (fun _ => k))
  (at level 61, right associativity) : py_scope.
Local Open Scope py_scope.

(** [when c m]: [if c: m] *)
Definition when {St} (c : bool) (m : M St unit) : M St unit :=
  if c then m else ret tt.

(** ** String formatting used in the messages *)

Definition hex_digit (d : Z) : ascii :=
  nth (Z.to_nat d) (list_ascii_of_string "0123456789ABCDEF") "0"%char.

Fixpoint hex_digits (fuel : nat) (v : Z) (acc : string) : string :=
  match fuel with
  | O => acc
  | S fuel' =>
      let acc' := String (hex_digit (v mod 16)) acc in
      if v / 16 =? 0 then acc' else hex_digits fuel' (v / 16) acc'
  end.

(** ["%X" % v] for [0 <= v] *)
Definition fmt_X (v : Z) : string :=
  hex_digits (S (Z.to_nat (Z.log2 v))) v "".

(** ["%02X" % v] for [0 <= v] *)
Definition fmt_02X (v : Z) : string :=
  let s := fmt_X v in
  if (String.length s <? 2)%nat then String "0"%char s else s.

(** ["%d" % v] *)
Definition fmt_d (v : Z) : string := NilZero.string_of_int (Z.to_int v).

(** ** Command vocabulary (module constants of sdo.py) *)

Definition REQUEST_SEGMENT_DOWNLOAD := Z.shiftl 0 5.
Definition REQUEST_DOWNLOAD := Z.shiftl 1 5.
Definition REQUEST_UPLOAD := Z.shiftl 2 5.
Definition REQUEST_SEGMENT_UPLOAD := Z.shiftl 3 5.
Definition REQUEST_ABORTED := Z.shiftl 4 5.
Definition REQUEST_BLOCK_UPLOAD := Z.shiftl 5 5.
Definition REQUEST_BLOCK_DOWNLOAD := Z.shiftl 6 5.

Definition RESPONSE_SEGMENT_UPLOAD := Z.shiftl 0 5.
Definition RESPONSE_SEGMENT_DOWNLOAD := Z.shiftl 1 5.
Definition RESPONSE_UPLOAD := Z.shiftl 2 5.
Definition RESPONSE_DOWNLOAD := Z.shiftl 3 5.
Definition RESPONSE_ABORTED := Z.shiftl 4 5.
Definition RESPONSE_BLOCK_DOWNLOAD := Z.shiftl 5 5.
Definition RESPONSE_BLOCK_UPLOAD := Z.shiftl 6 5.

Definition INITIATE_BLOCK_TRANSFER := 0.
Definition END_BLOCK_TRANSFER := 1.
Definition BLOCK_TRANSFER_RESPONSE := 2.
Definition START_BLOCK_UPLOAD := 3.

Definition EXPEDITED := 0x2.
Definition SIZE_SPECIFIED := 0x1.
Definition BLOCK_SIZE_SPECIFIED := 0x2.
Definition CRC_SUPPORTED := 0x4.
Definition NO_MORE_DATA := 0x1.
Definition NO_MORE_BLOCKS := 0x80.
Definition TOGGLE_BIT := 0x10.

(** Python truth value of an integer. *)
Definition truthy (v : Z) : bool := negb (v =? 0).

(** ** [struct] helpers, raising [struct.error] as Python does *)

Section Struct.
Context {St : Type}.

(** [struct.pack_into(fmt, buf, offset, v)] for one little-endian unsigned
    field of [n] bytes. *)
Definition pack_into_uint (n : nat) (buf : bytes) (offset : Z) (v : Z)
  : M St bytes :=
  if in_range (8 * Z.of_nat n) v && (offset + Z.of_nat n <=? len buf)
  then ret (slice_assign offset (offset + Z.of_nat n) (le_bytes n v) buf)
  else raise StructError.

(** [struct.unpack_from(fmt, buf, offset)] for one little-endian unsigned
    field of [n] bytes. *)
Definition unpack_from_uint (n : nat) (buf : bytes) (offset : Z) : M St Z :=
  if offset + Z.of_nat n <=? len buf
  then ret (le_value (slice offset (offset + Z.of_nat n) buf))
  else raise StructError.

(** [SDO_STRUCT = struct.Struct("<BHB")]: command, index, subindex. *)
Definition SDO_STRUCT_pack (command index subindex : Z) : M St bytes :=
  if in_range 8 command && in_range 16 index && in_range 8 subindex
  then ret (le_bytes 1 command ++ le_bytes 2 index ++ le_bytes 1 subindex)
  else raise StructError.

Definition SDO_STRUCT_pack_into (buf : bytes) (offset : Z)
           (command index subindex : Z) : M St bytes :=
  packed <- SDO_STRUCT_pack command index subindex ;;
  if offset + 4 <=? len buf
  then ret (slice_assign offset (offset + 4) packed buf)
  else raise StructError.

Definition SDO_STRUCT_unpack_from (buf : bytes) : M St (Z * Z * Z) :=
  if 4 <=? len buf
  then ret (le_value (slice 0 1 buf), le_value (slice 1 3 buf),
            le_value (slice 3 4 buf))
  else raise StructError.

(** [buf[i] = v] on a bytearray *)
Definition setitem (buf : bytes) (i : Z) (v : Z) : M St bytes :=
  if in_range 8 v
  then ret (slice_assign i (i + 1) [v] buf)
  else raise ValueError.
End Struct.

(** ** class SdoClient

    Besides the attributes of the Python object ([RESPONSE_TIMEOUT] and
    [pause_before_send] in milliseconds, [MAX_RETRIES], the [responses]
    queue) the record holds the environment the client talks to:
    - [sent]: the frames [network.send_message] has accepted, oldest first;
    - [script]: what the bus does at each coming [send_message] call;
    - [clock]: [time.time()] in milliseconds. *)

(** What happens at one call of [network.send_message]: the transport
    raises [CanError], or takes the frame, after which the listed frames
    arrive (through [on_response]) before the client reads the queue
    again.  When the script is exhausted the frame is taken and nothing
    answers. *)
Inductive bus_event : Type :=
| Busy
| Deliver (replies : list bytes).

Record SdoClient : Type := mkClient {
  RESPONSE_TIMEOUT : Z;
  MAX_RETRIES : Z;
  pause_before_send : Z;
  responses : list bytes;
  sent : list bytes;
  script : list bus_event;
  clock : Z
}.

(** The class defaults: 0.3 s, one retry, no pause, idle bus. *)
Definition default_client (events : list bus_event) : SdoClient :=
  mkClient 300 1 0 [] [] events 0.

Definition set_responses (q : list bytes) (c : SdoClient) : SdoClient :=
  mkClient (RESPONSE_TIMEOUT c) (MAX_RETRIES c) (pause_before_send c)
           q (sent c) (script c) (clock c).

Definition set_sent (l : list bytes) (c : SdoClient) : SdoClient :=
  mkClient (RESPONSE_TIMEOUT c) (MAX_RETRIES c) (pause_before_send c)
           (responses c) l (script c) (clock c).

Definition set_script (l : list bus_event) (c : SdoClient) : SdoClient :=
  mkClient (RESPONSE_TIMEOUT c) (MAX_RETRIES c) (pause_before_send c)
           (responses c) (sent c) l (clock c).

Definition set_clock (t : Z) (c : SdoClient) : SdoClient :=
  mkClient (RESPONSE_TIMEOUT c) (MAX_RETRIES c) (pause_before_send c)
           (responses c) (sent c) (script c) t.

(** [time.sleep(ms)] *)
Definition sleep (ms : Z) : M SdoClient unit :=
  modify (fun c => set_clock (clock c + ms) c).

(** [self.on_response(can_id, data, timestamp)] *)
Definition on_response (data : bytes) (c : SdoClient) : SdoClient :=
  set_responses (responses c ++ [data]) c.

(** [self.network.send_message(self.rx_cobid, request)] *)
Definition send_message (request : bytes) : M SdoClient unit :=
  fun c =>
    match script c with
    | [] => (Return tt, set_sent (sent c ++ [request]) c)
    | Busy :: rest => (Raise CanError, set_script rest c)
    | Deliver replies :: rest =>
        (Return tt,
         fold_left (fun c' data => on_response data c') replies
                   (set_script rest (set_sent (sent c ++ [request]) c)))
    end.

(** The [while True] loop of [send_request]. *)
Fixpoint send_request_loop (fuel : nat) (request : bytes) (retries_left : Z)
  : M SdoClient unit :=
  match fuel with
  | O => out_of_fuel
  | S fuel' =>
      try_except
        (c <- get ;;
         when (truthy (pause_before_send c)) (sleep (pause_before_send c)) ;;
         send_message request)
        (fun e =>
           match e with
           | CanError =>
               Some (let retries_left := retries_left - 1 in
                     if negb (truthy retries_left) then raise e
                     else sleep 100 ;;
                          send_request_loop fuel' request retries_left)
           | _ => None
           end)
  end.

Definition send_request (fuel : nat) (request : bytes) : M SdoClient unit :=
  c <- get ;;
  send_request_loop fuel request (MAX_RETRIES c).

Definition read_response : M SdoClient bytes :=
  c <- get ;;
  match responses c with
  | [] =>
      (* queue.Empty after RESPONSE_TIMEOUT *)
      sleep (RESPONSE_TIMEOUT c) ;;
      raise (SdoCommunicationError "No SDO response received")
  | response :: rest =>
      modify (set_responses rest) ;;
      res_command <- unpack_from_uint 1 response 0 ;;
      if res_command =? RESPONSE_ABORTED then
        abort_code <- unpack_from_uint 4 response 4 ;;
        raise (SdoAbortedError abort_code)
      else ret response
  end.

(** The [while True] loop of [request_response]. *)
Fixpoint request_response_loop (fuel : nat) (sdo_request : bytes)
         (retries_left : Z) : M SdoClient bytes :=
  match fuel with
  | O => out_of_fuel
  | S fuel' =>
      send_request fuel sdo_request ;;
      try_except read_response
        (fun e =>
           match e with
           | SdoCommunicationError _ =>
               Some (let retries_left := retries_left - 1 in
                     if negb (truthy retries_left) then raise e
                     else request_response_loop fuel' sdo_request retries_left)
           | _ => None
           end)
  end.

Definition request_response (fuel : nat) (sdo_request : bytes)
  : M SdoClient bytes :=
  c <- get ;;
  when (negb (match responses c with [] => true | _ => false end))
       (modify (set_responses [])) ;;
  request_response_loop fuel sdo_request (MAX_RETRIES c).

(** [abort(abort_code)]; the default code is [0x08000000]. *)
Definition abort (fuel : nat) (abort_code : Z) : M SdoClient unit :=
  let request := bytearray 8 in
  request <- setitem request 0 REQUEST_ABORTED ;;
  request <- pack_into_uint 4 request 4 abort_code ;;
  send_request fuel request.

(** ** Stream objects

    A stream method runs on the pair of the stream object and the client it
    holds in [self.sdo_client]. *)

Definition on_client {S A} (m : M SdoClient A) : M (S * SdoClient) A :=
  fun st =>
    let '(r, c') := m (snd st) in (r, (fst st, c')).

Definition self {S} : M (S * SdoClient) S :=
  fun st => (Return (fst st), st).

Definition update {S} (f : S -> S) : M (S * SdoClient) unit :=
  fun st => (Return tt, (f (fst st), snd st)).

(** Run a method on the object [s]. *)
Definition call {S A} (s : S) (m : M (S * SdoClient) A)
  : M SdoClient (A * S) :=
  fun c =>
    match m (s, c) with
    | (Return a, (s', c')) => (Return (a, s'), c')
    | (Raise e, (_, c')) => (Raise e, c')
    | (OutOfFuel, (_, c')) => (OutOfFuel, c')
    end.

(** [io.DEFAULT_BUFFER_SIZE] *)
Definition DEFAULT_BUFFER_SIZE : Z := 8192.

(** [io.RawIOBase.readall]: call [self.read(DEFAULT_BUFFER_SIZE)] until it
    returns no bytes, and return the concatenation. *)
Fixpoint readall {St} (fuel : nat) (read : M St bytes) (res : bytes)
  : M St bytes :=
  match fuel with
  | O => out_of_fuel
  | S fuel' =>
      data <- read ;;
      match data with
      | [] => ret res
      | _ => readall fuel' read (res ++ data)
      end
  end.

Definition wrong_object_message (res_index res_subindex : Z) : string :=
  ("Node returned a value for 0x" ++ fmt_X res_index ++ ":"
   ++ fmt_d res_subindex ++ " instead, "
   ++ "maybe there is another SDO client communicating "
   ++ "on the same SDO channel?")%string.

Definition unexpected_response (res_command : Z) : exn :=
  SdoCommunicationError ("Unexpected response 0x" ++ fmt_02X res_command).

(** ** class ReadableStream *)
Module ReadableStream.

Record t : Type := mk {
  size : option Z;
  _done : bool;
  _toggle : Z;
  pos : Z;
  exp_data : option bytes
}.

Definition set_done (b : bool) (s : t) : t :=
  mk (size s) b (_toggle s) (pos s) (exp_data s).
Definition set_toggle (v : Z) (s : t) : t :=
  mk (size s) (_done s) v (pos s) (exp_data s).
Definition set_pos (v : Z) (s : t) : t :=
  mk (size s) (_done s) (_toggle s) v (exp_data s).

(** [ReadableStream(sdo_client, index, subindex)] *)
Definition __init__ (fuel : nat) (index subindex : Z) : M SdoClient t :=
  let request := bytearray 8 in
  request <- SDO_STRUCT_pack_into request 0 REQUEST_UPLOAD index subindex ;;
  response <- request_response fuel request ;;
  res <- SDO_STRUCT_unpack_from response ;;
  let '(res_command, res_index, res_subindex) := res in
  let res_data := slice 4 8 response in
  if negb (Z.land res_command 0xE0 =? RESPONSE_UPLOAD) then
    raise (unexpected_response res_command)
  else if negb (res_index =? index) || negb (res_subindex =? subindex) then
    raise (SdoCommunicationError
             (wrong_object_message res_index res_subindex))
  else if truthy (Z.land res_command EXPEDITED) then
    (* Expedited upload *)
    if truthy (Z.land res_command SIZE_SPECIFIED) then
      let size := 4 - Z.land (Z.shiftr res_command 2) 0x3 in
      let exp_data := slice 0 size res_data in
      ret (mk (Some size) false 0 (0 + len exp_data) (Some exp_data))
    else
      ret (mk None false 0 (0 + len res_data) (Some res_data))
  else if truthy (Z.land res_command SIZE_SPECIFIED) then
    if len res_data =? 4
    then ret (mk (Some (le_value res_data)) false 0 0 None)
    else raise StructError
  else
    ret (mk None false 0 0 None).

(** One segment exchange: the part of [read] below the early returns. *)
Definition read_segment (fuel : nat) : M (t * SdoClient) bytes :=
  s <- self ;;
  let command := REQUEST_SEGMENT_UPLOAD in
  let command := Z.lor command (_toggle s) in
  let request := bytearray 8 in
  request <- setitem request 0 command ;;
  response <- on_client (request_response fuel request) ;;
  res_command <- unpack_from_uint 1 response 0 ;;
  if negb (Z.land res_command 0xE0 =? RESPONSE_SEGMENT_UPLOAD) then
    raise (unexpected_response res_command)
  else if negb (Z.land res_command TOGGLE_BIT =? _toggle s) then
    raise (SdoCommunicationError "Toggle bit mismatch")
  else
    let length := 7 - Z.land (Z.shiftr res_command 1) 0x7 in
    when (truthy (Z.land res_command NO_MORE_DATA))
         (update (set_done true)) ;;
    update (fun s => set_toggle (Z.lxor (_toggle s) TOGGLE_BIT) s) ;;
    update (fun s => set_pos (pos s + length) s) ;;
    ret (slice 1 (length + 1) response).

(** [read(size)]; [size = None] is Python's [None], the default is [-1]. *)
Fixpoint read (fuel : nat) (size : option Z) : M (t * SdoClient) bytes :=
  match fuel with
  | O => out_of_fuel
  | S fuel' =>
      s <- self ;;
      if _done s then ret []
      else
        match exp_data s with
        | Some data => update (set_done true) ;; ret data
        | None =>
            if match size with None => true | Some n => n <? 0 end
            then readall fuel' (read fuel' (Some DEFAULT_BUFFER_SIZE)) []
            else read_segment fuel
        end
  end.

(** [readinto(b)] hands [read(7)] to the buffer; the data it stores. *)
Definition readinto (fuel : nat) : M (t * SdoClient) bytes :=
  read fuel (Some 7).

Definition tell : M (t * SdoClient) Z :=
  s <- self ;; ret (pos s).

End ReadableStream.

(** [SdoClient.upload(index, subindex)]:
    [with ReadableStream(self, index, subindex) as fp: return fp.read()] *)
Definition upload (fuel : nat) (index subindex : Z) : M SdoClient bytes :=
  fp <- ReadableStream.__init__ fuel index subindex ;;
  r <- call fp (ReadableStream.read fuel (Some (-1))) ;;
  ret (fst r).

(** ** class WritableStream *)
Module WritableStream.

Record t : Type := mk {
  size : option Z;
  pos : Z;
  _toggle : Z;
  _exp_header : option bytes;
  _done : bool
}.

Definition set_pos (v : Z) (s : t) : t :=
  mk (size s) v (_toggle s) (_exp_header s) (_done s).
Definition set_toggle (v : Z) (s : t) : t :=
  mk (size s) (pos s) v (_exp_header s) (_done s).
Definition set_done (b : bool) (s : t) : t :=
  mk (size s) (pos s) (_toggle s) (_exp_header s) b.

(** [size is None or size > 4 or force_segment] *)
Definition use_segmented (size : option Z) (force_segment : bool) : bool :=
  match size with
  | None => true
  | Some n => (4 <? n) || force_segment
  end.

(** The initiate request of a segmented download (lines 476-481). *)
Definition initiate_request {St} (index subindex : Z) (size : option Z)
  : M St bytes :=
  let request := bytearray 8 in
  let command := REQUEST_DOWNLOAD in
  match size with
  | Some n =>
      let command := Z.lor command SIZE_SPECIFIED in
      request <- pack_into_uint 4 request 4 n ;;
      SDO_STRUCT_pack_into request 0 command index subindex
  | None =>
      SDO_STRUCT_pack_into request 0 command index subindex
  end.

(** [WritableStream(sdo_client, index, subindex, size, force_segment)] *)
Definition __init__ (fuel : nat) (index subindex : Z) (size : option Z)
           (force_segment : bool) : M SdoClient t :=
  if use_segmented size force_segment then
    (* Initiate segmented download *)
    request <- initiate_request index subindex size ;;
    response <- request_response fuel request ;;
    res_command <- unpack_from_uint 1 response 0 ;;
    if negb (res_command =? RESPONSE_DOWNLOAD) then
      raise (unexpected_response res_command)
    else ret (mk size 0 0 None false)
  else
    (* Expedited download *)
    let n := match size with Some n => n | None => 0 end in
    let command :=
      Z.lor (Z.lor REQUEST_DOWNLOAD EXPEDITED) SIZE_SPECIFIED in
    let command := Z.lor command (Z.shiftl (4 - n) 2) in
    header <- SDO_STRUCT_pack command index subindex ;;
    ret (mk size 0 0 (Some header) false).

(** [write(b)] *)
Definition write (fuel : nat) (b : bytes) : M (t * SdoClient) Z :=
  s <- self ;;
  if _done s then
    raise (RuntimeError "All expected data has already been transmitted")
  else
    bytes_sent <-
      match _exp_header s with
      | Some exp_header =>
          (* Expedited download *)
          if match size s with
             | Some n => len b <? n
             | None => false
             end
          then ret None
          else if 4 <? len b then
            raise (AssertionError "More data received than expected")
          else
            let request := exp_header ++ ljust 4 b in
            response <- on_client (request_response fuel request) ;;
            res_command <- unpack_from_uint 1 response 0 ;;
            if negb (Z.land res_command 0xE0 =? RESPONSE_DOWNLOAD) then
              raise (unexpected_response res_command)
            else
              update (set_done true) ;;
              ret (Some (len b))
      | None =>
          (* Segmented download *)
          let request := bytearray 8 in
          let command := REQUEST_SEGMENT_DOWNLOAD in
          let command := Z.lor command (_toggle s) in
          update (fun s => set_toggle (Z.lxor (_toggle s) TOGGLE_BIT) s) ;;
          let bytes_sent := Z.min (len b) 7 in
          let last :=
            match size s with
            | Some n => n <=? pos s + bytes_sent
            | None => false
            end in
          let command :=
            if last then Z.lor command NO_MORE_DATA else command in
          when last (update (set_done true)) ;;
          let command := Z.lor command (Z.shiftl (7 - bytes_sent) 1) in
          request <- setitem request 0 command ;;
          let request :=
            slice_assign 1 (bytes_sent + 1) (slice 0 bytes_sent b) request in
          response <- on_client (request_response fuel request) ;;
          res_command <- unpack_from_uint 1 (slice 0 1 response) 0 ;;
          if negb (Z.land res_command 0xE0 =? RESPONSE_SEGMENT_DOWNLOAD)
          then raise TypeError  (* the message has two %-fields, one value *)
          else ret (Some bytes_sent)
      end ;;
    match bytes_sent with
    | None => ret 0  (* the early [return 0] *)
    | Some n =>
        (* Advance position *)
        update (fun s => set_pos (pos s + n) s) ;;
        ret n
    end.

(** [close()]: an unfinished segmented download is ended by an empty
    segment that says there is no more data. *)
Definition close (fuel : nat) : M (t * SdoClient) unit :=
  s <- self ;;
  when (negb (_done s)
        && match _exp_header s with
           | Some (_ :: _) => false
           | _ => true
           end)
       ((* Segmented download not finished *)
        let command := Z.lor REQUEST_SEGMENT_DOWNLOAD NO_MORE_DATA in
        let command := Z.lor command (_toggle s) in
        (* No data in this message *)
        let command := Z.lor command (Z.shiftl 7 1) in
        let request := bytearray 8 in
        request <- setitem request 0 command ;;
        on_client (request_response fuel request) ;;
        update (set_done true)).

Definition tell : M (t * SdoClient) Z :=
  s <- self ;; ret (pos s).

End WritableStream.

(** ** [binascii.crc_hqx]

    The library routine the block transfers call: CRC-CCITT, driven by the
    256-entry table [crctab_hqx] of the C implementation. *)
Definition crctab_hqx : list Z :=
  [
    0x0000; 0x1021; 0x2042; 0x3063; 0x4084; 0x50a5; 0x60c6; 0x70e7;
    0x8108; 0x9129; 0xa14a; 0xb16b; 0xc18c; 0xd1ad; 0xe1ce; 0xf1ef;
    0x1231; 0x0210; 0x3273; 0x2252; 0x52b5; 0x4294; 0x72f7; 0x62d6;
    0x9339; 0x8318; 0xb37b; 0xa35a; 0xd3bd; 0xc39c; 0xf3ff; 0xe3de;
    0x2462; 0x3443; 0x0420; 0x1401; 0x64e6; 0x74c7; 0x44a4; 0x5485;
    0xa56a; 0xb54b; 0x8528; 0x9509; 0xe5ee; 0xf5cf; 0xc5ac; 0xd58d;
    0x3653; 0x2672; 0x1611; 0x0630; 0x76d7; 0x66f6; 0x5695; 0x46b4;
    0xb75b; 0xa77a; 0x9719; 0x8738; 0xf7df; 0xe7fe; 0xd79d; 0xc7bc;
    0x48c4; 0x58e5; 0x6886; 0x78a7; 0x0840; 0x1861; 0x2802; 0x3823;
    0xc9cc; 0xd9ed; 0xe98e; 0xf9af; 0x8948; 0x9969; 0xa90a; 0xb92b;
    0x5af5; 0x4ad4; 0x7ab7; 0x6a96; 0x1a71; 0x0a50; 0x3a33; 0x2a12;
    0xdbfd; 0xcbdc; 0xfbbf; 0xeb9e; 0x9b79; 0x8b58; 0xbb3b; 0xab1a;
    0x6ca6; 0x7c87; 0x4ce4; 0x5cc5; 0x2c22; 0x3c03; 0x0c60; 0x1c41;
    0xedae; 0xfd8f; 0xcdec; 0xddcd; 0xad2a; 0xbd0b; 0x8d68; 0x9d49;
    0x7e97; 0x6eb6; 0x5ed5; 0x4ef4; 0x3e13; 0x2e32; 0x1e51; 0x0e70;
    0xff9f; 0xefbe; 0xdfdd; 0xcffc; 0xbf1b; 0xaf3a; 0x9f59; 0x8f78;
    0x9188; 0x81a9; 0xb1ca; 0xa1eb; 0xd10c; 0xc12d; 0xf14e; 0xe16f;
    0x1080; 0x00a1; 0x30c2; 0x20e3; 0x5004; 0x4025; 0x7046; 0x6067;
    0x83b9; 0x9398; 0xa3fb; 0xb3da; 0xc33d; 0xd31c; 0xe37f; 0xf35e;
    0x02b1; 0x1290; 0x22f3; 0x32d2; 0x4235; 0x5214; 0x6277; 0x7256;
    0xb5ea; 0xa5cb; 0x95a8; 0x8589; 0xf56e; 0xe54f; 0xd52c; 0xc50d;
    0x34e2; 0x24c3; 0x14a0; 0x0481; 0x7466; 0x6447; 0x5424; 0x4405;
    0xa7db; 0xb7fa; 0x8799; 0x97b8; 0xe75f; 0xf77e; 0xc71d; 0xd73c;
    0x26d3; 0x36f2; 0x0691; 0x16b0; 0x6657; 0x7676; 0x4615; 0x5634;
    0xd94c; 0xc96d; 0xf90e; 0xe92f; 0x99c8; 0x89e9; 0xb98a; 0xa9ab;
    0x5844; 0x4865; 0x7806; 0x6827; 0x18c0; 0x08e1; 0x3882; 0x28a3;
    0xcb7d; 0xdb5c; 0xeb3f; 0xfb1e; 0x8bf9; 0x9bd8; 0xabbb; 0xbb9a;
    0x4a75; 0x5a54; 0x6a37; 0x7a16; 0x0af1; 0x1ad0; 0x2ab3; 0x3a92;
    0xfd2e; 0xed0f; 0xdd6c; 0xcd4d; 0xbdaa; 0xad8b; 0x9de8; 0x8dc9;
    0x7c26; 0x6c07; 0x5c64; 0x4c45; 0x3ca2; 0x2c83; 0x1ce0; 0x0cc1;
    0xef1f; 0xff3e; 0xcf5d; 0xdf7c; 0xaf9b; 0xbfba; 0x8fd9; 0x9ff8;
    0x6e17; 0x7e36; 0x4e55; 0x5e74; 0x2e93; 0x3eb2; 0x0ed1; 0x1ef0
  ].

(** One byte: [crc = ((crc << 8) & 0xff00) ^ crctab_hqx[(crc >> 8) ^ b]] *)
Definition crc_hqx_step (crc b : Z) : Z :=
  Z.lxor (Z.land (Z.shiftl crc 8) 0xff00)
         (nth (Z.to_nat (Z.lxor (Z.shiftr crc 8) b)) crctab_hqx 0).

(** [crc_hqx(data, value)] *)
Definition crc_hqx (data : bytes) (value : Z) : Z :=
  fold_left crc_hqx_step data (Z.land value 0xffff).

(** ** class BlockUploadStream *)
Module BlockUploadStream.

Record t : Type := mk {
  size : option Z;
  blksize : Z;
  crc_supported : bool;
  _done : bool;
  pos : Z;
  _crc : Z;
  _server_crc : option Z;
  _ackseq : Z;
  closed : bool
}.

Definition set_done (b : bool) (s : t) : t :=
  mk (size s) (blksize s) (crc_supported s) b (pos s) (_crc s)
     (_server_crc s) (_ackseq s) (closed s).
Definition set_pos (v : Z) (s : t) : t :=
  mk (size s) (blksize s) (crc_supported s) (_done s) v (_crc s)
     (_server_crc s) (_ackseq s) (closed s).
Definition set_crc (v : Z) (s : t) : t :=
  mk (size s) (blksize s) (crc_supported s) (_done s) (pos s) v
     (_server_crc s) (_ackseq s) (closed s).
Definition set_server_crc (v : option Z) (s : t) : t :=
  mk (size s) (blksize s) (crc_supported s) (_done s) (pos s) (_crc s)
     v (_ackseq s) (closed s).
Definition set_ackseq (v : Z) (s : t) : t :=
  mk (size s) (blksize s) (crc_supported s) (_done s) (pos s) (_crc s)
     (_server_crc s) v (closed s).
Definition set_closed (b : bool) (s : t) : t :=
  mk (size s) (blksize s) (crc_supported s) (_done s) (pos s) (_crc s)
     (_server_crc s) (_ackseq s) b.

(** [BlockUploadStream(sdo_client, index, subindex)] *)
Definition __init__ (fuel : nat) (index subindex : Z) : M SdoClient t :=
  let blksize := 127 in
  (* Initiate Block Upload *)
  let request := bytearray 8 in
  let command :=
    Z.lor (Z.lor REQUEST_BLOCK_UPLOAD INITIATE_BLOCK_TRANSFER)
          CRC_SUPPORTED in
  request <- SDO_STRUCT_pack_into request 0 command index subindex ;;
  request <- pack_into_uint 1 request 4 blksize ;;
  request <- pack_into_uint 1 request 5 0 ;;
  response <- request_response fuel request ;;
  res <- SDO_STRUCT_unpack_from response ;;
  let '(res_command, res_index, res_subindex) := res in
  if negb (Z.land res_command 0xE0 =? RESPONSE_BLOCK_UPLOAD) then
    raise (unexpected_response res_command)
  else if negb (res_index =? index) || negb (res_subindex =? subindex) then
    raise (SdoCommunicationError
             (wrong_object_message res_index res_subindex))
  else
    size <-
      (if truthy (Z.land res_command BLOCK_SIZE_SPECIFIED)
       then v <- unpack_from_uint 4 response 4 ;; ret (Some v)
       else ret None) ;;
    let crc_supported := truthy (Z.land res_command CRC_SUPPORTED) in
    (* Start upload *)
    let request := bytearray 8 in
    request <- setitem request 0
                 (Z.lor REQUEST_BLOCK_UPLOAD START_BLOCK_UPLOAD) ;;
    send_request fuel request ;;
    ret (mk size blksize crc_supported false 0 0 None 0 false).

Definition _ack_block (fuel : nat) : M (t * SdoClient) unit :=
  s <- self ;;
  let request := bytearray 8 in
  request <- setitem request 0
               (Z.lor REQUEST_BLOCK_UPLOAD BLOCK_TRANSFER_RESPONSE) ;;
  request <- setitem request 1 (_ackseq s) ;;
  request <- setitem request 2 (blksize s) ;;
  on_client (send_request fuel request) ;;
  when (_ackseq s =? blksize s) (update (set_ackseq 0)).

(** The [while time.time() < end_time] loop of [_retransmit]. *)
Fixpoint _retransmit_loop (fuel : nat) (end_time : Z)
  : M (t * SdoClient) bytes :=
  match fuel with
  | O => out_of_fuel
  | S fuel' =>
      c <- on_client get ;;
      if clock c <? end_time then
        response <- on_client read_response ;;
        res_command <- unpack_from_uint 1 response 0 ;;
        let seqno := Z.land res_command 0x7F in
        s <- self ;;
        if seqno =? _ackseq s + 1 then
          (* We should be back in sync *)
          update (set_ackseq seqno) ;;
          ret response
        else _retransmit_loop fuel' end_time
      else
        raise (SdoCommunicationError
                 "Some data were lost and could not be retransmitted")
  end.

Definition _retransmit (fuel : nat) : M (t * SdoClient) bytes :=
  c <- on_client get ;;
  let end_time := clock c + RESPONSE_TIMEOUT c in
  _ack_block fuel ;;
  _retransmit_loop fuel end_time.

(** Returns the number of bytes not used in the last message. *)
Definition _end_upload (fuel : nat) : M (t * SdoClient) Z :=
  response <- on_client read_response ;;
  res_command <- unpack_from_uint 1 response 0 ;;
  server_crc <- unpack_from_uint 2 response 1 ;;
  update (set_server_crc (Some server_crc)) ;;
  if negb (Z.land res_command 0xE0 =? RESPONSE_BLOCK_UPLOAD) then
    on_client (abort fuel 0x05040001) ;;
    raise (unexpected_response res_command)
  else if negb (Z.land res_command 0x3 =? END_BLOCK_TRANSFER) then
    on_client (abort fuel 0x05040001) ;;
    raise (SdoCommunicationError "Server did not end transfer as expected")
  else
    ret (Z.land (Z.shiftr res_command 2) 0x7).

(** One frame: the part of [read] below the early returns. *)
Definition read_frame (fuel : nat) : M (t * SdoClient) bytes :=
  response <-
    try_except (on_client read_response)
      (fun e =>
         match e with
         | SdoCommunicationError _ => Some (_retransmit fuel)
         | _ => None
         end) ;;
  res_command <- unpack_from_uint 1 response 0 ;;
  let seqno := Z.land res_command 0x7F in
  s <- self ;;
  rr <-
    (if seqno =? _ackseq s + 1 then
       update (set_ackseq seqno) ;;
       ret (response, res_command)
     else
       (* Wrong sequence number *)
       response <- _retransmit fuel ;;
       res_command <- unpack_from_uint 1 response 0 ;;
       ret (response, res_command)) ;;
  let '(response, res_command) := rr in
  s <- self ;;
  when ((blksize s <=? _ackseq s)
        || truthy (Z.land res_command NO_MORE_BLOCKS))
       (_ack_block fuel) ;;
  data <-
    (if truthy (Z.land res_command NO_MORE_BLOCKS) then
       n <- _end_upload fuel ;;
       let data := slice 1 (8 - n) response in
       update (set_done true) ;;
       ret data
     else
       ret (slice 1 8 response)) ;;
  s <- self ;;
  when (crc_supported s)
       (update (set_crc (crc_hqx data (_crc s))) ;;
        s <- self ;;
        when (_done s)
             (if negb (match _server_crc s with
                       | Some v => v =? _crc s
                       | None => false
                       end)
              then
                on_client (abort fuel 0x05040004) ;;
                raise (SdoCommunicationError "CRC is not OK")
              else ret tt)) ;;
  update (fun s => set_pos (pos s + len data) s) ;;
  ret data.

(** [read(size)]; [size = None] is Python's [None], the default is [-1]. *)
Fixpoint read (fuel : nat) (size : option Z) : M (t * SdoClient) bytes :=
  match fuel with
  | O => out_of_fuel
  | S fuel' =>
      s <- self ;;
      if _done s then ret []
      else if match size with None => true | Some n => n <? 0 end
      then readall fuel' (read fuel' (Some DEFAULT_BUFFER_SIZE)) []
      else read_frame fuel
  end.

(** [close()] *)
Definition close (fuel : nat) : M (t * SdoClient) unit :=
  s <- self ;;
  if closed s then ret tt
  else
    update (set_closed true) ;;
    s <- self ;;
    when (_done s)
         (let request := bytearray 8 in
          request <- setitem request 0
                       (Z.lor REQUEST_BLOCK_UPLOAD END_BLOCK_TRANSFER) ;;
          on_client (send_request fuel request)).

Definition tell : M (t * SdoClient) Z :=
  s <- self ;; ret (pos s).

End BlockUploadStream.

(** ** class BlockDownloadStream *)
Module BlockDownloadStream.

Record t : Type := mk {
  size : option Z;
  pos : Z;
  _done : bool;
  _seqno : Z;
  _crc : Z;
  _last_bytes_sent : Z;
  _blksize : Z;
  crc_supported : bool;
  closed : bool
}.

Definition set_pos (v : Z) (s : t) : t :=
  mk (size s) v (_done s) (_seqno s) (_crc s) (_last_bytes_sent s)
     (_blksize s) (crc_supported s) (closed s).
Definition set_done (b : bool) (s : t) : t :=
  mk (size s) (pos s) b (_seqno s) (_crc s) (_last_bytes_sent s)
     (_blksize s) (crc_supported s) (closed s).
Definition set_seqno (v : Z) (s : t) : t :=
  mk (size s) (pos s) (_done s) v (_crc s) (_last_bytes_sent s)
     (_blksize s) (crc_supported s) (closed s).
Definition set_crc (v : Z) (s : t) : t :=
  mk (size s) (pos s) (_done s) (_seqno s) v (_last_bytes_sent s)
     (_blksize s) (crc_supported s) (closed s).
Definition set_last_bytes_sent (v : Z) (s : t) : t :=
  mk (size s) (pos s) (_done s) (_seqno s) (_crc s) v
     (_blksize s) (crc_supported s) (closed s).
Definition set_blksize (v : Z) (s : t) : t :=
  mk (size s) (pos s) (_done s) (_seqno s) (_crc s) (_last_bytes_sent s)
     v (crc_supported s) (closed s).
Definition set_closed (b : bool) (s : t) : t :=
  mk (size s) (pos s) (_done s) (_seqno s) (_crc s) (_last_bytes_sent s)
     (_blksize s) (crc_supported s) b.

(** [BlockDownloadStream(sdo_client, index, subindex, size)] *)
Definition __init__ (fuel : nat) (index subindex : Z) (size : option Z)
  : M SdoClient t :=
  let command :=
    Z.lor (Z.lor REQUEST_BLOCK_DOWNLOAD INITIATE_BLOCK_TRANSFER)
          CRC_SUPPORTED in
  let request := bytearray 8 in
  cr <-
    match size with
    | Some n =>
        request <- pack_into_uint 4 request 4 n ;;
        ret (Z.lor command BLOCK_SIZE_SPECIFIED, request)
    | None => ret (command, request)
    end ;;
  let '(command, request) := cr in
  request <- SDO_STRUCT_pack_into request 0 command index subindex ;;
  response <- request_response fuel request ;;
  res <- SDO_STRUCT_unpack_from response ;;
  let '(res_command, res_index, res_subindex) := res in
  if negb (Z.land res_command 0xE0 =? RESPONSE_BLOCK_DOWNLOAD) then
    abort fuel 0x05040001 ;;
    raise (unexpected_response res_command)
  else if negb (res_index =? index) || negb (res_subindex =? subindex) then
    abort fuel 0x08000000 ;;
    raise (SdoCommunicationError
             (wrong_object_message res_index res_subindex))
  else
    blksize <- unpack_from_uint 1 response 4 ;;
    let crc_supported := truthy (Z.land res_command CRC_SUPPORTED) in
    ret (mk size 0 false 0 0 0 blksize crc_supported false).

Definition _block_ack (fuel : nat) : M (t * SdoClient) unit :=
  response <- on_client read_response ;;
  res_command <- unpack_from_uint 1 response 0 ;;
  ackseq <- unpack_from_uint 1 response 1 ;;
  blksize <- unpack_from_uint 1 response 2 ;;
  s <- self ;;
  if negb (Z.land res_command 0xE0 =? RESPONSE_BLOCK_DOWNLOAD) then
    on_client (abort fuel 0x05040001) ;;
    raise (unexpected_response res_command)
  else if negb (Z.land res_command 0x3 =? BLOCK_TRANSFER_RESPONSE) then
    on_client (abort fuel 0x05040001) ;;
    raise (SdoCommunicationError
             ("Server did not respond with a "
              ++ "block download response"))
  else if negb (ackseq =? _blksize s) then
    on_client (abort fuel 0x05040003) ;;
    raise (SdoCommunicationError
             (fmt_d ackseq ++ " of " ++ fmt_d (_blksize s)
              ++ " sequences were received. "
              ++ "Retransmission is not supported yet."))
  else
    update (set_blksize blksize) ;;
    update (set_seqno 0).

(** [send(b, end)] *)
Definition send (fuel : nat) (b : bytes) (end_ : bool)
  : M (t * SdoClient) unit :=
  if negb (len b <=? 7) then
    raise (AssertionError "Max 7 bytes can be sent")
  else if negb end_ && negb (len b =? 7) then
    raise (AssertionError "Less than 7 bytes only allowed if last data")
  else
    update (fun s => set_seqno (_seqno s + 1) s) ;;
    s <- self ;;
    let command := _seqno s in
    let command := if end_ then Z.lor command NO_MORE_BLOCKS else command in
    when end_
         (update (set_done true) ;;
          (* Change expected ACK:ed sequence *)
          update (set_blksize (_seqno s)) ;;
          (* Save how many bytes this message contains *)
          update (set_last_bytes_sent (len b))) ;;
    let request := bytearray 8 in
    request <- setitem request 0 command ;;
    let request := slice_assign 1 (len b + 1) b request in
    on_client (send_request fuel request) ;;
    update (fun s => set_pos (pos s + len b) s) ;;
    s <- self ;;
    when (crc_supported s)
         ((* Calculate CRC *)
          update (set_crc (crc_hqx b (_crc s)))) ;;
    when (_blksize s <=? _seqno s)
         ((* End of this block, wait for ACK *)
          _block_ack fuel).

(** [write(b)]; [None] is the early [return None]. *)
Definition write (fuel : nat) (b : bytes) : M (t * SdoClient) (option Z) :=
  s <- self ;;
  if _done s then
    raise (RuntimeError "All expected data has already been transmitted")
  else
    (* Can send up to 7 bytes at a time *)
    let data := slice 0 7 b in
    if match size s with
       | Some n => n <=? pos s + len data
       | None => false
       end
    then send fuel data true ;; ret (Some (len data))
    else if len data <? 7 then ret None
    else send fuel data false ;; ret (Some (len data)).

(** [close()] *)
Definition close (fuel : nat) : M (t * SdoClient) unit :=
  s <- self ;;
  if closed s then ret tt
  else
    update (set_closed true) ;;
    let command := Z.lor REQUEST_BLOCK_DOWNLOAD END_BLOCK_TRANSFER in
    (* Number of bytes in last message that did not contain data *)
    let command :=
      Z.lor command (Z.shiftl (7 - _last_bytes_sent s) 2) in
    let request := bytearray 8 in
    request <- setitem request 0 command ;;
    request <-
      (if crc_supported s
       then pack_into_uint 2 request 1 (_crc s)
       else ret request) ;;
    response <- on_client (request_response fuel request) ;;
    res_command <- unpack_from_uint 1 response 0 ;;
    if negb (truthy (Z.land res_command END_BLOCK_TRANSFER)) then
      raise (SdoCommunicationError "Block download unsuccessful")
    else ret tt.

Definition tell : M (t * SdoClient) Z :=
  s <- self ;; ret (pos s).

End BlockDownloadStream.

(** ** Variable.set_data and SdoClient.download

    [objectdictionary.DOMAIN], the data-type code of the object dictionary
    package, is a parameter. *)
Section SetData.
Variable DOMAIN : Z.

(** [force_segment = self.od.data_type == objectdictionary.DOMAIN] *)
Definition set_data_force_segment (data_type : Z) : bool :=
  data_type =? DOMAIN.

(** The raw stream [download(index, subindex, data, force_segment)]
    opens (line 173); the buffered writer then feeds [data] to its
    [write]. *)
Definition download_stream (fuel : nat) (index subindex : Z) (data : bytes)
           (force_segment : bool) : M SdoClient WritableStream.t :=
  WritableStream.__init__ fuel index subindex (Some (len data))
                          force_segment.

(** The stream [Variable.set_data(data)] opens for an object of type
    [data_type] at [index:subindex]. *)
Definition set_data_stream (fuel : nat) (data_type index subindex : Z)
           (data : bytes) : M SdoClient WritableStream.t :=
  let force_segment := set_data_force_segment data_type in
  download_stream fuel index subindex data force_segment.
End SetData.

(** [upload], keeping the stream next to the data it returned. *)
Definition upload_with_stream (fuel : nat) (index subindex : Z)
  : M SdoClient (bytes * ReadableStream.t) :=
  fp <- ReadableStream.__init__ fuel index subindex ;;
  call fp (ReadableStream.read fuel (Some (-1))).

(** ** Vocabulary of the statements *)

(** The transport takes the next frame. *)
Definition accepts (c : SdoClient) : bool :=
  match script c with
  | Busy :: _ => false
  | _ => true
  end.

(** The frames that arrive once the next frame is sent. *)
Definition next_replies (c : SdoClient) : list bytes :=
  match script c with
  | Deliver replies :: _ => replies
  | _ => []
  end.

(** The client after [send_request] put [request] on a bus that took it. *)
Definition after_send (request : bytes) (c : SdoClient) : SdoClient :=
  mkClient (RESPONSE_TIMEOUT c) (MAX_RETRIES c) (pause_before_send c)
           (responses c ++ next_replies c) (sent c ++ [request])
           (tl (script c)) (clock c + pause_before_send c).

(** The client after a [request_response] exchange answered at once:
    stale frames dropped, the request sent, the first reply consumed. *)
Definition after_exchange (request : bytes) (c : SdoClient) : SdoClient :=
  mkClient (RESPONSE_TIMEOUT c) (MAX_RETRIES c) (pause_before_send c)
           (tl (next_replies c)) (sent c ++ [request])
           (tl (script c)) (clock c + pause_before_send c).

(** The command byte of a frame. *)
Definition command_of (frame : bytes) : option Z := hd_error frame.

(** The abort frame [abort(code)] sends. *)
Definition abort_frame (code : Z) : bytes :=
  [REQUEST_ABORTED; 0; 0; 0] ++ le_bytes 4 code.

(** The request that opens an upload of [index:subindex]. *)
Definition upload_request (index subindex : Z) : bytes :=
  [REQUEST_UPLOAD] ++ le_bytes 2 index ++ [subindex; 0; 0; 0; 0].

(** The request of one segment of a segmented upload. *)
Definition segment_upload_request (toggle : Z) : bytes :=
  [Z.lor REQUEST_SEGMENT_UPLOAD toggle; 0; 0; 0; 0; 0; 0; 0].

(** The initiate request of a segmented download. *)
Definition download_initiate_request (index subindex : Z) (size : option Z)
  : bytes :=
  match size with
  | Some n =>
      [Z.lor REQUEST_DOWNLOAD SIZE_SPECIFIED] ++ le_bytes 2 index
      ++ [subindex] ++ le_bytes 4 n
  | None =>
      [REQUEST_DOWNLOAD] ++ le_bytes 2 index ++ [subindex; 0; 0; 0; 0]
  end.

(** The header kept for an expedited download of [n] bytes. *)
Definition expedited_header (index subindex n : Z) : bytes :=
  [Z.lor (Z.lor (Z.lor REQUEST_DOWNLOAD EXPEDITED) SIZE_SPECIFIED)
         (Z.shiftl (4 - n) 2)]
  ++ le_bytes 2 index ++ [subindex].

(** The block acknowledgment of a block upload. *)
Definition block_upload_ack_request (ackseq blksize : Z) : bytes :=
  [Z.lor REQUEST_BLOCK_UPLOAD BLOCK_TRANSFER_RESPONSE; ackseq; blksize;
   0; 0; 0; 0; 0].

(** The END acknowledgment a finished block upload sends on close. *)
Definition block_upload_end_request : bytes :=
  [Z.lor REQUEST_BLOCK_UPLOAD END_BLOCK_TRANSFER; 0; 0; 0; 0; 0; 0; 0].

(** The bus of scenario 3, with [seg2] as the second segment response. *)
Definition scenario_3_bus (seg2 : bytes) : list bus_event :=
  [Deliver [[0x41; 0x08; 0x10; 0x00; 0x0A; 0x00; 0x00; 0x00]];
   Deliver [[0x00; 0x01; 0x02; 0x03; 0x04; 0x05; 0x06; 0x07]];
   Deliver [seg2]].

(** The requests the client sends in scenario 3. *)
Definition scenario_3_requests : list bytes :=
  [[0x40; 0x08; 0x10; 0; 0; 0; 0; 0];
   [0x60; 0; 0; 0; 0; 0; 0; 0];
   [0x70; 0; 0; 0; 0; 0; 0; 0]].

(** The fields of a block upload stream that only [read] itself updates. *)
Definition block_upload_agree (s0 s1 : BlockUploadStream.t) : Prop :=
  BlockUploadStream.crc_supported s1 = BlockUploadStream.crc_supported s0
  /\ BlockUploadStream._crc s1 = BlockUploadStream._crc s0
  /\ BlockUploadStream.pos s1 = BlockUploadStream.pos s0.

(** A method that leaves those fields alone, whatever its outcome. *)
Definition block_upload_keeps {A}
           (m : M (BlockUploadStream.t * SdoClient) A) : Prop :=
  forall st r st', m st = (r, st') -> block_upload_agree (fst st) (fst st').

(** ** CRC-16-CCITT as the specification words it

    Polynomial [0x1021], initial value 0, message bits taken most
    significant first (no reflection), no final xor. *)

(** Shift one message bit into the register. *)
Definition crc16_ccitt_bit (crc : Z) (bit : bool) : Z :=
  let shifted := Z.land (Z.shiftl crc 1) 0xffff in
  if xorb (Z.testbit crc 15) bit then Z.lxor shifted 0x1021 else shifted.

Definition crc16_ccitt_byte (crc b : Z) : Z :=
  fold_left (fun crc i => crc16_ccitt_bit crc (Z.testbit b i))
            [7; 6; 5; 4; 3; 2; 1; 0] crc.

Definition crc16_ccitt (data : bytes) : Z :=
  fold_left crc16_ccitt_byte data 0.

(** ** A block upload whose first transmission is lost *)

(** Open a block upload and read it to the end, as
    [Variable.open("rb", buffering=0, block_transfer=True).read()] does. *)
Definition block_upload_with_stream (fuel : nat) (index subindex : Z)
  : M SdoClient (bytes * BlockUploadStream.t) :=
  fp <- BlockUploadStream.__init__ fuel index subindex ;;
  call fp (BlockUploadStream.read fuel (Some (-1))).

(** The same, for one [read(7)]. *)
Definition block_upload_first_read (fuel : nat) (index subindex : Z)
  : M SdoClient (bytes * BlockUploadStream.t) :=
  fp <- BlockUploadStream.__init__ fuel index subindex ;;
  call fp (BlockUploadStream.read fuel (Some 7)).

(** A 21-byte object and the three data frames of its only block. *)
Definition lost_block_object : bytes :=
  [1; 2; 3; 4; 5; 6; 7; 8; 9; 10; 11; 12; 13; 14; 15; 16; 17; 18; 19; 20; 21].

Definition lost_block_frames : list bytes :=
  [0x01 :: slice 0 7 lost_block_object;
   0x02 :: slice 7 14 lost_block_object;
   0x83 :: slice 14 21 lost_block_object].

(** The END frame of the server: no unused byte, CRC [0xCDF0]. *)
Definition lost_block_end : bytes := [0xC1; 0xF0; 0xCD; 0; 0; 0; 0; 0].

(** The bus when the block arrives at once ... *)
Definition whole_block_bus : list bus_event :=
  [Deliver [[0xC6; 0x08; 0x10; 0x00; 21; 0; 0; 0]];
   Deliver lost_block_frames;
   Deliver [lost_block_end]].

(** ... and when its first transmission is lost: nothing follows the
    START request, the server sends the block again when the client
    acknowledges sequence 0, does not react to the acknowledgment of
    sequence 1, and ends the transfer when sequence 3 is acknowledged. *)
Definition lost_block_bus : list bus_event :=
  [Deliver [[0xC6; 0x08; 0x10; 0x00; 21; 0; 0; 0]];
   Deliver [];
   Deliver lost_block_frames;
   Deliver [];
   Deliver [lost_block_end]].

(** * Proofs *)

Local Open Scope py_scope.

(** * Equations of the monad *)

Section MonadLaws.
Context {St A B : Type}.

Lemma bind_ret (a : A) (k : A -> M St B) (s : St) :
  bind (ret a) k s = k a s.
Proof. reflexivity. Qed.

Lemma bind_raise (e : exn) (k : A -> M St B) (s : St) :
  bind (raise e) k s = (Raise e, s).
Proof. reflexivity. Qed.

Lemma bind_get (k : St -> M St B) (s : St) :
  bind get k s = k s s.
Proof. reflexivity. Qed.

Lemma bind_modify (f : St -> St) (k : unit -> M St B) (s : St) :
  bind (modify f) k s = k tt (f s).
Proof. reflexivity. Qed.

Lemma bind_returns (m : M St A) (k : A -> M St B) (s s' : St) (a : A) :
  m s = (Return a, s') -> bind m k s = k a s'.
Proof. unfold bind. now intros ->. Qed.

Lemma bind_raises (m : M St A) (k : A -> M St B) (s s' : St) (e : exn) :
  m s = (Raise e, s') -> bind m k s = (Raise e, s').
Proof. unfold bind. now intros ->. Qed.
End MonadLaws.

Lemma bind_bind {St A B C} (m : M St A) (k1 : A -> M St B)
      (k2 : B -> M St C) (s : St) :
  bind (bind m k1) k2 s = bind m (fun a => bind (k1 a) k2) s.
Proof. unfold bind. destruct (m s) as [[a| |] s']; reflexivity. Qed.

Lemma bind_unfold {St A B} (m : M St A) (k : A -> M St B) (s : St) :
  bind m k s
  = match m s with
    | (Return a, s') => k a s'
    | (Raise e, s') => (Raise e, s')
    | (OutOfFuel, s') => (OutOfFuel, s')
    end.
Proof. reflexivity. Qed.

Lemma bind_Return_inv {St A B} (m : M St A) (k : A -> M St B)
      (st st' : St) (b : B) :
  bind m k st = (Return b, st') ->
  exists a st1, m st = (Return a, st1) /\ k a st1 = (Return b, st').
Proof.
  rewrite bind_unfold.
  destruct (m st) as [[a | e |] st1]; try discriminate.
  intros H. now exists a, st1.
Qed.

Section StreamLaws.
Context {S A B : Type}.

Lemma bind_self (k : S -> M (S * SdoClient) B) (st : S * SdoClient) :
  bind self k st = k (fst st) st.
Proof. reflexivity. Qed.

Lemma bind_update (f : S -> S) (k : unit -> M (S * SdoClient) B)
      (s : S) (c : SdoClient) :
  bind (update f) k (s, c) = k tt (f s, c).
Proof. reflexivity. Qed.

Lemma on_client_returns (m : M SdoClient A) (s : S) (c c' : SdoClient)
      (a : A) :
  m c = (Return a, c') -> on_client m (s, c) = (Return a, (s, c')).
Proof. unfold on_client. cbn. now intros ->. Qed.

Lemma on_client_raises (m : M SdoClient A) (s : S) (c c' : SdoClient)
      (e : exn) :
  m c = (Raise e, c') -> on_client m (s, c) = (Raise e, (s, c')).
Proof. unfold on_client. cbn. now intros ->. Qed.
End StreamLaws.

#[global] Opaque bind.

Ltac mstep :=
  repeat first
    [ rewrite bind_bind | rewrite bind_ret | rewrite bind_raise | rewrite bind_get
    | rewrite bind_modify | rewrite bind_self | rewrite bind_update ];
  cbn beta iota.

Lemma try_except_returns {St A} (m : M St A)
      (handler : exn -> option (M St A)) (st st' : St) (a : A) :
  m st = (Return a, st') -> try_except m handler st = (Return a, st').
Proof. unfold try_except. now intros ->. Qed.

(** * Bytes, bit fields and [struct] *)

Lemma in_range_spec (bits v : Z) :
  in_range bits v = true <-> 0 <= v < 2 ^ bits.
Proof.
  unfold in_range. rewrite andb_true_iff, Z.leb_le, Z.ltb_lt. tauto.
Qed.

Lemma land_low_bits (x : Z) (n : Z) :
  0 <= n -> 0 <= Z.land x (Z.ones n) < 2 ^ n.
Proof.
  intros Hn. rewrite Z.land_ones by assumption.
  apply Z.mod_pos_bound. now apply Z.pow_pos_nonneg.
Qed.

Lemma land_3_bounds (x : Z) : 0 <= Z.land x 0x3 <= 3.
Proof. pose proof (land_low_bits x 2 ltac:(lia)) as H. change (Z.ones 2) with 3 in H. change (2 ^ 2) with 4 in H. lia. Qed.

Lemma land_7_bounds (x : Z) : 0 <= Z.land x 0x7 <= 7.
Proof. pose proof (land_low_bits x 3 ltac:(lia)) as H. change (Z.ones 3) with 7 in H. change (2 ^ 3) with 8 in H. lia. Qed.

Lemma land_7F_byte (x : Z) : in_range 8 (Z.land x 0x7F) = true.
Proof.
  apply in_range_spec. pose proof (land_low_bits x 7 ltac:(lia)) as H.
  change (Z.ones 7) with 0x7F in H. change (2 ^ 7) with 128 in H.
  change (2 ^ 8) with 256. lia.
Qed.

Lemma land_byte (v : Z) : in_range 8 v = true -> Z.land v 0xFF = v.
Proof.
  intros H%in_range_spec. change 0xFF with (Z.ones 8).
  rewrite Z.land_ones by lia. now apply Z.mod_small.
Qed.

Lemma le_bytes_1 (v : Z) : in_range 8 v = true -> le_bytes 1 v = [v].
Proof.
  intros H. unfold le_bytes. cbn [seq map]. 
  change (8 * Z.of_nat 0) with 0. rewrite Z.shiftr_0_r. now rewrite land_byte.
Qed.

Lemma le_value_le_bytes_4 (v : Z) :
  in_range 32 v = true -> le_value (le_bytes 4 v) = v.
Proof.
  intros H%in_range_spec. unfold le_bytes. cbn [seq map le_value].
  change 0xFF with (Z.ones 8).
  rewrite !Z.land_ones, !Z.shiftr_div_pow2 by lia.
  change (8 * Z.of_nat 0) with 0. change (8 * Z.of_nat 1) with 8.
  change (8 * Z.of_nat 2) with 16. change (8 * Z.of_nat 3) with 24.
  change (2 ^ 0) with 1. change (2 ^ 8) with 256.
  change (2 ^ 16) with 65536. change (2 ^ 24) with 16777216.
  change (2 ^ 32) with 4294967296 in H.
  Z.to_euclidean_division_equations. lia.
Qed.

Lemma slice_slice_prefix (n : Z) (r : bytes) :
  0 <= n <= 4 -> slice 0 n (slice 4 8 r) = slice 4 (4 + n) r.
Proof.
  intros Hn. unfold slice.
  change (Z.to_nat 0) with 0%nat. cbn [skipn].
  rewrite firstn_firstn. f_equal. lia.
Qed.

Lemma unpack_command {St} (response : bytes) (cmd : Z) :
  command_of response = Some cmd ->
  @unpack_from_uint St 1 response 0 = ret cmd.
Proof.
  destruct response as [|x tl]; [discriminate|]. intros [= ->].
  unfold unpack_from_uint, len. cbn [List.length].
  replace (0 + Z.of_nat 1 <=? Z.of_nat (S (List.length tl))) with true
    by (symmetry; apply Z.leb_le; lia).
  change (slice 0 (0 + Z.of_nat 1) (cmd :: tl)) with [cmd].
  cbn [le_value]. now replace (cmd + 256 * 0) with cmd by lia.
Qed.

Lemma unpack_command_at {St} (response : bytes) (cmd : Z) (s : St) :
  command_of response = Some cmd ->
  unpack_from_uint 1 response 0 s = (Return cmd, s).
Proof. intros H. now rewrite (unpack_command _ _ H). Qed.

Lemma unpack_from_uint_ok {St} (n : nat) (buf : bytes) (offset : Z) (s : St) :
  offset + Z.of_nat n <= len buf ->
  unpack_from_uint n buf offset s
  = (Return (le_value (slice offset (offset + Z.of_nat n) buf)), s).
Proof.
  intros H. unfold unpack_from_uint.
  now replace (offset + Z.of_nat n <=? len buf) with true
    by (symmetry; apply Z.leb_le; lia).
Qed.

Lemma SDO_STRUCT_unpack_from_frame {St} (cmd i0 i1 sub : Z) (payload : bytes)
      (s : St) :
  SDO_STRUCT_unpack_from (cmd :: i0 :: i1 :: sub :: payload) s
  = (Return (cmd, i0 + 256 * i1, sub), s).
Proof.
  unfold SDO_STRUCT_unpack_from, len. cbn [List.length].
  replace (4 <=? _) with true by (symmetry; apply Z.leb_le; lia).
  unfold ret.
  change (slice 0 1 (cmd :: i0 :: i1 :: sub :: payload)) with [cmd].
  change (slice 1 3 (cmd :: i0 :: i1 :: sub :: payload)) with [i0; i1].
  change (slice 3 4 (cmd :: i0 :: i1 :: sub :: payload)) with [sub].
  cbn [le_value]. repeat f_equal; lia.
Qed.

Lemma SDO_STRUCT_pack_value {St} (command index subindex : Z) (s : St) :
  in_range 8 command = true -> in_range 16 index = true ->
  in_range 8 subindex = true ->
  SDO_STRUCT_pack command index subindex s
  = (Return ([command] ++ le_bytes 2 index ++ [subindex]), s).
Proof.
  intros Hc Hi Hs. unfold SDO_STRUCT_pack. rewrite Hc, Hi, Hs. cbn [andb].
  now rewrite (le_bytes_1 _ Hc), (le_bytes_1 _ Hs).
Qed.

Lemma SDO_STRUCT_pack_into_head {St} (b0 b1 b2 b3 : Z) (rest : bytes)
      (command index subindex : Z) (s : St) :
  in_range 8 command = true -> in_range 16 index = true ->
  in_range 8 subindex = true ->
  SDO_STRUCT_pack_into (b0 :: b1 :: b2 :: b3 :: rest) 0 command index subindex s
  = (Return ([command] ++ le_bytes 2 index ++ [subindex] ++ rest), s).
Proof.
  intros Hc Hi Hs. unfold SDO_STRUCT_pack_into.
  rewrite (bind_returns _ _ _ _ _ (SDO_STRUCT_pack_value _ _ _ s Hc Hi Hs)).
  unfold len. cbn [List.length].
  replace (0 + 4 <=? _) with true by (symmetry; apply Z.leb_le; lia).
  reflexivity.
Qed.

Lemma SDO_STRUCT_pack_into_fresh {St} (command index subindex : Z) (s : St) :
  in_range 8 command = true -> in_range 16 index = true ->
  in_range 8 subindex = true ->
  SDO_STRUCT_pack_into (bytearray 8) 0 command index subindex s
  = (Return ([command] ++ le_bytes 2 index ++ [subindex; 0; 0; 0; 0]), s).
Proof.
  intros Hc Hi Hs. unfold SDO_STRUCT_pack_into, SDO_STRUCT_pack.
  rewrite Hc, Hi, Hs. cbn [andb].
  rewrite (le_bytes_1 _ Hc), (le_bytes_1 _ Hs).
  rewrite bind_ret. reflexivity.
Qed.

Lemma setitem_fresh_0 {St} (v : Z) (s : St) :
  in_range 8 v = true ->
  setitem (bytearray 8) 0 v s = (Return [v; 0; 0; 0; 0; 0; 0; 0], s).
Proof. intros H. unfold setitem. now rewrite H. Qed.

Lemma truthy_true (v : Z) : v <> 0 -> truthy v = true.
Proof. intros H. unfold truthy. now apply Z.eqb_neq in H as ->. Qed.

Lemma class_not_aborted (cmd class : Z) :
  Z.land cmd 0xE0 = class -> class <> RESPONSE_ABORTED ->
  cmd <> RESPONSE_ABORTED.
Proof. intros H Hc ->. apply Hc. rewrite <- H. reflexivity. Qed.

(** * The client operations on a bus that answers *)

Lemma fold_on_response (replies : list bytes) (c : SdoClient) :
  fold_left (fun c' data => on_response data c') replies c
  = set_responses (responses c ++ replies) c.
Proof.
  revert c. induction replies as [|r replies IH]; intros c.
  - destruct c; cbn. unfold set_responses; cbn. now rewrite app_nil_r.
  - cbn [fold_left]. rewrite IH. destruct c; unfold on_response, set_responses; cbn.
    now rewrite <- app_assoc.
Qed.

Lemma send_message_accepted (request : bytes) (c : SdoClient) :
  accepts c = true ->
  send_message request c
  = (Return tt,
     mkClient (RESPONSE_TIMEOUT c) (MAX_RETRIES c) (pause_before_send c)
              (responses c ++ next_replies c) (sent c ++ [request])
              (tl (script c)) (clock c)).
Proof.
  unfold accepts, send_message, next_replies.
  destruct c as [rt mr pb q snt scr clk]; cbn.
  destruct scr as [|[|replies] rest]; cbn; intros H; try discriminate.
  - unfold set_sent; cbn. now rewrite app_nil_r.
  - rewrite fold_on_response. reflexivity.
Qed.

Lemma send_request_accepted (fuel : nat) (request : bytes) (c : SdoClient) :
  accepts c = true ->
  send_request (S fuel) request c = (Return tt, after_send request c).
Proof.
  intros H.
  unfold send_request. mstep. cbn [send_request_loop].
  unfold try_except. mstep. unfold when, truthy.
  destruct (pause_before_send c =? 0) eqn:Hp; cbn [negb]; mstep.
  - rewrite send_message_accepted by assumption.
    apply Z.eqb_eq in Hp. unfold after_send. rewrite Hp, Z.add_0_r. reflexivity.
  - unfold sleep. mstep.
    rewrite send_message_accepted by (destruct c; exact H).
    destruct c; reflexivity.
Qed.

Lemma read_response_frame (c : SdoClient) (response : bytes)
      (more : list bytes) (cmd : Z) :
  responses c = response :: more ->
  command_of response = Some cmd ->
  cmd <> RESPONSE_ABORTED ->
  read_response c = (Return response, set_responses more c).
Proof.
  intros Hq Hc Hn. unfold read_response. mstep. rewrite Hq. mstep.
  rewrite (unpack_command _ _ Hc). mstep.
  destruct (cmd =? RESPONSE_ABORTED) eqn:E; [apply Z.eqb_eq in E; contradiction|].
  reflexivity.
Qed.

Lemma read_response_timeout (c : SdoClient) :
  responses c = [] ->
  read_response c
  = (Raise (SdoCommunicationError "No SDO response received"),
     set_clock (clock c + RESPONSE_TIMEOUT c) c).
Proof.
  intros Hq. unfold read_response. mstep. rewrite Hq. unfold sleep. mstep. reflexivity.
Qed.

Lemma request_response_answered (fuel : nat) (request response : bytes)
      (more : list bytes) (c : SdoClient) (cmd : Z) :
  accepts c = true ->
  next_replies c = response :: more ->
  command_of response = Some cmd ->
  cmd <> RESPONSE_ABORTED ->
  request_response (S fuel) request c
  = (Return response, after_exchange request c).
Proof.
  intros Ha Hn Hc Hne.
  unfold request_response. mstep.
  set (c0 := set_responses [] c).
  assert (Hflush :
    when (negb match responses c with [] => true | _ :: _ => false end)
         (modify (set_responses [])) c = (Return tt, c0)).
  { destruct c as [rt mr pb q snt scr clk]; destruct q; reflexivity. }
  rewrite (bind_returns _ _ _ _ _ Hflush).
  cbn [request_response_loop].
  rewrite (bind_returns _ _ _ _ _ (send_request_accepted fuel request c0 Ha)).
  unfold try_except.
  assert (Hq : responses (after_send request c0) = response :: more).
  { unfold after_send, c0, next_replies in *. destruct c; cbn in *. now rewrite Hn. }
  rewrite (read_response_frame _ _ _ _ Hq Hc Hne).
  unfold after_exchange, after_send, c0, next_replies in *.
  destruct c; cbn in *. rewrite Hn. reflexivity.
Qed.

Lemma abort_sends (fuel : nat) (code : Z) (c : SdoClient) :
  in_range 32 code = true ->
  accepts c = true ->
  abort (S fuel) code c = (Return tt, after_send (abort_frame code) c).
Proof.
  intros Hc Ha. unfold abort.
  rewrite (bind_returns _ _ _ _ _
             (setitem_fresh_0 REQUEST_ABORTED c eq_refl)).
  unfold pack_into_uint. change (8 * Z.of_nat 4) with 32. rewrite Hc.
  cbn [andb].
  change (4 + Z.of_nat 4 <=? len [REQUEST_ABORTED; 0; 0; 0; 0; 0; 0; 0])
    with true.
  cbv iota. mstep.
  change (slice_assign 4 (4 + Z.of_nat 4) (le_bytes 4 code)
            [REQUEST_ABORTED; 0; 0; 0; 0; 0; 0; 0])
    with ([REQUEST_ABORTED; 0; 0; 0] ++ le_bytes 4 code ++ []).
  rewrite app_nil_r. now apply send_request_accepted.
Qed.

(** * Expedited upload *)

(** What [ReadableStream.__init__] builds from an expedited response that
    states its size. *)
Lemma ReadableStream_init_expedited (fuel : nat) (c : SdoClient)
      (index subindex cmd i0 i1 : Z) (payload : bytes) (more : list bytes) :
  in_range 16 index = true ->
  in_range 8 subindex = true ->
  accepts c = true ->
  next_replies c = (cmd :: i0 :: i1 :: subindex :: payload) :: more ->
  i0 + 256 * i1 = index ->
  Z.land cmd 0xE0 = RESPONSE_UPLOAD ->
  Z.land cmd EXPEDITED <> 0 ->
  Z.land cmd SIZE_SPECIFIED <> 0 ->
  ReadableStream.__init__ (S fuel) index subindex c
  = (Return
       (ReadableStream.mk
          (Some (4 - Z.land (Z.shiftr cmd 2) 0x3)) false 0
          (0 + len (slice 4 (4 + (4 - Z.land (Z.shiftr cmd 2) 0x3))
                          (cmd :: i0 :: i1 :: subindex :: payload)))
          (Some (slice 4 (4 + (4 - Z.land (Z.shiftr cmd 2) 0x3))
                       (cmd :: i0 :: i1 :: subindex :: payload)))),
     after_exchange (upload_request index subindex) c).
Proof.
  intros Hi Hs Ha Hn Hidx Hclass He Hsz.
  unfold ReadableStream.__init__.
  rewrite (bind_returns _ _ _ _ _
             (SDO_STRUCT_pack_into_fresh REQUEST_UPLOAD index subindex c
                eq_refl Hi Hs)).
  assert (Hne : cmd <> RESPONSE_ABORTED)
    by (eapply class_not_aborted; [exact Hclass | discriminate]).
  rewrite (bind_returns _ _ _ _ _
             (request_response_answered fuel _ _ _ c cmd Ha Hn eq_refl Hne)).
  rewrite (bind_returns _ _ _ _ _ (SDO_STRUCT_unpack_from_frame _ _ _ _ _ _)).
  rewrite Hclass, Hidx, !Z.eqb_refl. cbn [negb orb].
  rewrite (truthy_true _ He), (truthy_true _ Hsz).
  rewrite slice_slice_prefix by (pose proof (land_3_bounds (Z.shiftr cmd 2)); lia).
  reflexivity.
Qed.

(** C1: an expedited upload whose response states its size returns the
    first [4 - ((c >> 2) & 3)] payload bytes, bytes 4..4+length of the
    response, after one request/response exchange; the stream is then
    done and further reads return no bytes and send nothing. *)
Theorem expedited_upload_returns_payload
        (fuel : nat) (c : SdoClient) (index subindex cmd i0 i1 : Z)
        (payload : bytes) (more : list bytes) :
  in_range 16 index = true ->
  in_range 8 subindex = true ->
  accepts c = true ->
  next_replies c = (cmd :: i0 :: i1 :: subindex :: payload) :: more ->
  i0 + 256 * i1 = index ->
  Z.land cmd 0xE0 = RESPONSE_UPLOAD ->
  Z.land cmd EXPEDITED <> 0 ->
  Z.land cmd SIZE_SPECIFIED <> 0 ->
  upload (S fuel) index subindex c
  = (Return (slice 4 (4 + (4 - Z.land (Z.shiftr cmd 2) 0x3))
                   (cmd :: i0 :: i1 :: subindex :: payload)),
     after_exchange (upload_request index subindex) c)
  /\ exists fp,
      upload_with_stream (S fuel) index subindex c
      = (Return (slice 4 (4 + (4 - Z.land (Z.shiftr cmd 2) 0x3))
                       (cmd :: i0 :: i1 :: subindex :: payload), fp),
         after_exchange (upload_request index subindex) c)
      /\ ReadableStream._done fp = true
      /\ forall fuel' size c',
          ReadableStream.read (S fuel') size (fp, c')
          = (Return [], (fp, c')).
Proof.
  intros Hi Hs Ha Hn Hidx Hclass He Hsz.
  pose proof (ReadableStream_init_expedited fuel c index subindex cmd i0 i1
                payload more Hi Hs Ha Hn Hidx Hclass He Hsz) as Hinit.
  split.
  - unfold upload. rewrite (bind_returns _ _ _ _ _ Hinit).
    unfold call. cbn [ReadableStream.read]. mstep.
    cbn [fst ReadableStream._done ReadableStream.exp_data]. mstep.
    reflexivity.
  - eexists. split; [|split].
    + unfold upload_with_stream. rewrite (bind_returns _ _ _ _ _ Hinit).
      unfold call. cbn [ReadableStream.read]. mstep.
      cbn [fst ReadableStream._done ReadableStream.exp_data]. mstep.
      reflexivity.
    + reflexivity.
    + intros fuel' size c'. cbn [ReadableStream.read]. mstep. reflexivity.
Qed.

(** Scenario 1: request [40 17 10 00 00 00 00 00], response
    [4B 17 10 00 34 12 00 00], result [34 12]. *)
Lemma scenario_1_expedited_upload :
  upload 1 0x1017 0
         (default_client [Deliver [[0x4B; 0x17; 0x10; 0x00; 0x34; 0x12; 0; 0]]])
  = (Return [0x34; 0x12],
     mkClient 300 1 0 [] [[0x40; 0x17; 0x10; 0; 0; 0; 0; 0]] [] 0).
Proof.
  exact (proj1 (expedited_upload_returns_payload
                  0 (default_client
                       [Deliver [[0x4B; 0x17; 0x10; 0x00; 0x34; 0x12; 0; 0]]])
                  0x1017 0 0x4B 0x17 0x10 [0x34; 0x12; 0; 0] []
                  eq_refl eq_refl eq_refl eq_refl eq_refl eq_refl
                  ltac:(discriminate) ltac:(discriminate))).
Defined.

(** * Segmented upload: one segment exchange *)

(** C2: one segment exchange of a segmented upload.  With a response of
    class RESPONSE_SEGMENT_UPLOAD whose toggle bit equals the client's, the
    read returns bytes 1..1+length, length = 7 - ((c >> 1) & 7), the stream
    is done exactly when c & 1 is set, the toggle is flipped and pos grows by
    length.  A response that is not an abort frame and whose toggle bit
    differs makes the read fail with SdoCommunicationError. *)
Theorem segment_read_exchange
        (fuel : nat) (n : Z) (s : ReadableStream.t) (c : SdoClient)
        (cmd : Z) (payload : bytes) (more : list bytes) :
  ReadableStream._done s = false ->
  ReadableStream.exp_data s = None ->
  ReadableStream._toggle s = 0 \/ ReadableStream._toggle s = TOGGLE_BIT ->
  0 <= n ->
  accepts c = true ->
  next_replies c = (cmd :: payload) :: more ->
  (Z.land cmd 0xE0 = RESPONSE_SEGMENT_UPLOAD ->
   Z.land cmd TOGGLE_BIT = ReadableStream._toggle s ->
   ReadableStream.read (S fuel) (Some n) (s, c)
   = (Return (slice 1 (1 + (7 - Z.land (Z.shiftr cmd 1) 0x7)) (cmd :: payload)),
      (ReadableStream.mk
         (ReadableStream.size s)
         (truthy (Z.land cmd NO_MORE_DATA))
         (Z.lxor (ReadableStream._toggle s) TOGGLE_BIT)
         (ReadableStream.pos s + (7 - Z.land (Z.shiftr cmd 1) 0x7))
         None,
       after_exchange
         (segment_upload_request (ReadableStream._toggle s)) c)))
  /\ (Z.land cmd TOGGLE_BIT <> ReadableStream._toggle s ->
      cmd <> RESPONSE_ABORTED ->
      exists msg,
        ReadableStream.read (S fuel) (Some n) (s, c)
        = (Raise (SdoCommunicationError msg),
           (s, after_exchange
                 (segment_upload_request (ReadableStream._toggle s)) c))
        /\ (Z.land cmd 0xE0 = RESPONSE_SEGMENT_UPLOAD ->
            msg = "Toggle bit mismatch"%string)).
Proof.
  intros Hdone Hexp Htog Hn Ha Hr.
  assert (Hsize : (n <? 0) = false) by (apply Z.ltb_ge; lia).
  assert (Hcmdrange :
            in_range 8 (Z.lor REQUEST_SEGMENT_UPLOAD (ReadableStream._toggle s))
            = true)
    by (destruct Htog as [-> | ->]; reflexivity).
  split.
  - intros Hclass Hmatch.
    assert (Hne : cmd <> RESPONSE_ABORTED)
      by (eapply class_not_aborted; [exact Hclass | discriminate]).
    cbn [ReadableStream.read]. mstep. cbn [fst]. rewrite Hdone, Hexp, Hsize.
    unfold ReadableStream.read_segment. mstep. cbn [fst].
    rewrite (bind_returns _ _ _ _ _ (setitem_fresh_0 _ _ Hcmdrange)).
    rewrite (bind_returns _ _ _ _ _
               (on_client_returns _ _ _ _ _
                  (request_response_answered fuel _ _ _ c cmd Ha Hr
                     eq_refl Hne))).
    rewrite (bind_returns _ _ _ _ _ (unpack_command_at (cmd :: payload) cmd _ eq_refl)).
    rewrite Hclass, Hmatch, !Z.eqb_refl. cbn [negb].
    unfold when. destruct s as [sz dn tg ps ex]. cbn in Hdone, Hexp. subst dn ex.
    cbn [ReadableStream._toggle ReadableStream.pos ReadableStream.size].
    replace (7 - Z.land (Z.shiftr cmd 1) 7 + 1)
      with (1 + (7 - Z.land (Z.shiftr cmd 1) 7)) by lia.
    destruct (truthy (Z.land cmd NO_MORE_DATA)); mstep; reflexivity.
  - intros Hmis Hne.
    cbn [ReadableStream.read]. mstep. cbn [fst]. rewrite Hdone, Hexp, Hsize.
    unfold ReadableStream.read_segment. mstep. cbn [fst].
    rewrite (bind_returns _ _ _ _ _ (setitem_fresh_0 _ _ Hcmdrange)).
    rewrite (bind_returns _ _ _ _ _
               (on_client_returns _ _ _ _ _
                  (request_response_answered fuel _ _ _ c cmd Ha Hr
                     eq_refl Hne))).
    rewrite (bind_returns _ _ _ _ _ (unpack_command_at (cmd :: payload) cmd _ eq_refl)).
    destruct (Z.land cmd 224 =? RESPONSE_SEGMENT_UPLOAD) eqn:Hclass; cbn [negb].
    + apply Z.eqb_neq in Hmis. rewrite Hmis. cbn [negb].
      eexists. split; [reflexivity|]. reflexivity.
    + eexists. split; [reflexivity|].
      intros Hc. apply Z.eqb_neq in Hclass. contradiction.
Qed.

(** The first segment of scenario 3, and the same response with the
    toggle bit set. *)
Lemma scenario_3_first_segment :
  ReadableStream.read 1 (Some 7)
    (ReadableStream.mk (Some 10) false 0 0 None,
     default_client [Deliver [[0x00; 1; 2; 3; 4; 5; 6; 7]]])
  = (Return [1; 2; 3; 4; 5; 6; 7],
     (ReadableStream.mk (Some 10) false 0x10 7 None,
      mkClient 300 1 0 [] [[0x60; 0; 0; 0; 0; 0; 0; 0]] [] 0))
  /\ ReadableStream.read 1 (Some 7)
       (ReadableStream.mk (Some 10) false 0 0 None,
        default_client [Deliver [[0x10; 1; 2; 3; 4; 5; 6; 7]]])
     = (Raise (SdoCommunicationError "Toggle bit mismatch"),
        (ReadableStream.mk (Some 10) false 0 0 None,
         mkClient 300 1 0 [] [[0x60; 0; 0; 0; 0; 0; 0; 0]] [] 0)).
Proof.
  split.
  - exact (proj1 (segment_read_exchange
                    0 7 (ReadableStream.mk (Some 10) false 0 0 None)
                    (default_client [Deliver [[0x00; 1; 2; 3; 4; 5; 6; 7]]])
                    0x00 [1; 2; 3; 4; 5; 6; 7] []
                    eq_refl eq_refl (or_introl eq_refl) ltac:(lia)
                    eq_refl eq_refl)
                 eq_refl eq_refl).
  - destruct (proj2 (segment_read_exchange
                       0 7 (ReadableStream.mk (Some 10) false 0 0 None)
                       (default_client [Deliver [[0x10; 1; 2; 3; 4; 5; 6; 7]]])
                       0x10 [1; 2; 3; 4; 5; 6; 7] []
                       eq_refl eq_refl (or_introl eq_refl) ltac:(lia)
                       eq_refl eq_refl)
                    ltac:(discriminate) ltac:(discriminate))
      as (msg & Hread & Hmsg).
    rewrite (Hmsg eq_refl) in Hread. exact Hread.
Defined.

(** * Scenario 3 *)

(** With the second segment response as scenario 3 writes it,
    [1D 08 09 0A 00 00 00 00], the upload does not return the ten bytes:
    [0x1D] announces 6 unused bytes, so one data byte. *)
Lemma scenario_3_as_written_is_not_ten_bytes :
  ~ exists fuel fp c',
      upload_with_stream fuel 0x1008 0
        (default_client
           (scenario_3_bus [0x1D; 0x08; 0x09; 0x0A; 0x00; 0x00; 0x00; 0x00]))
      = (Return ([0x01; 0x02; 0x03; 0x04; 0x05; 0x06; 0x07; 0x08; 0x09; 0x0A],
                 fp), c')
      /\ ReadableStream.pos fp = 10.
Proof.
  intros (fuel & fp & c' & H & _).
  do 4 (destruct fuel as [|fuel]; [vm_compute in H; discriminate|]).
  vm_compute in H. discriminate.
Qed.

(** C3 (amended): with the second segment response [19 08 09 0A 00 00 00
    00] (toggle 1, 4 unused bytes, no more data) the segmented upload of
    0x1008:0 returns the ten bytes 01..0A and ends with pos = 10; with the
    response [1D 08 09 0A 00 00 00 00] (6 unused bytes) it returns the
    eight bytes 01..08 and ends with pos = 8.  The requests are
    [40 08 10 00 ..], [60 ..], [70 ..] in both runs. *)
Theorem scenario_3_segmented_upload (fuel : nat) :
  upload_with_stream (4 + fuel) 0x1008 0
    (default_client
       (scenario_3_bus [0x19; 0x08; 0x09; 0x0A; 0x00; 0x00; 0x00; 0x00]))
  = (Return ([0x01; 0x02; 0x03; 0x04; 0x05; 0x06; 0x07; 0x08; 0x09; 0x0A],
             ReadableStream.mk (Some 10) true 0 10 None),
     mkClient 300 1 0 [] scenario_3_requests [] 0)
  /\ upload_with_stream (4 + fuel) 0x1008 0
       (default_client
          (scenario_3_bus [0x1D; 0x08; 0x09; 0x0A; 0x00; 0x00; 0x00; 0x00]))
     = (Return ([0x01; 0x02; 0x03; 0x04; 0x05; 0x06; 0x07; 0x08],
                ReadableStream.mk (Some 10) true 0 8 None),
        mkClient 300 1 0 [] scenario_3_requests [] 0).
Proof. split; vm_compute; reflexivity. Qed.

(** * Timeouts and retries *)

(** On a bus that never answers, [request_response] puts the request on
    the bus [MAX_RETRIES] times in all before it raises: the number of
    re-sends is [MAX_RETRIES - 1]. *)
Lemma request_response_loop_silent (k fuel : nat) (request : bytes)
      (c : SdoClient) :
  responses c = [] ->
  script c = [] ->
  request_response_loop (S k + fuel) request (Z.of_nat (S k)) c
  = (Raise (SdoCommunicationError "No SDO response received"),
     mkClient (RESPONSE_TIMEOUT c) (MAX_RETRIES c) (pause_before_send c)
              [] (sent c ++ repeat request (S k)) []
              (clock c + Z.of_nat (S k)
                         * (pause_before_send c + RESPONSE_TIMEOUT c))).
Proof.
  revert c. induction k as [|k IH]; intros c Hq Hs.
  - cbn [Nat.add request_response_loop].
    rewrite (bind_returns _ _ _ _ _
               (send_request_accepted fuel request c
                  ltac:(unfold accepts; now rewrite Hs))).
    unfold try_except.
    rewrite read_response_timeout
      by (unfold after_send, next_replies; cbn; now rewrite Hq, Hs).
    change (Z.of_nat 1 - 1) with 0. cbv zeta.
    change (negb (truthy 0)) with true. cbv iota.
    unfold raise, after_send, set_clock, next_replies.
    destruct c as [rt mr pb q snt scr clk]. cbn in Hq, Hs. subst q scr.
    cbn [RESPONSE_TIMEOUT MAX_RETRIES pause_before_send responses sent
         script clock tl app repeat].
    replace (clk + Z.of_nat 1 * (pb + rt)) with (clk + pb + rt) by lia.
    reflexivity.
  - change (S (S k) + fuel)%nat with (S (S k + fuel)).
    cbn [request_response_loop].
    rewrite (bind_returns _ _ _ _ _
               (send_request_accepted (S k + fuel) request c
                  ltac:(unfold accepts; now rewrite Hs))).
    unfold try_except.
    rewrite read_response_timeout
      by (unfold after_send, next_replies; cbn; now rewrite Hq, Hs).
    replace (Z.of_nat (S (S k)) - 1) with (Z.of_nat (S k)) by lia.
    unfold truthy.
    replace (Z.of_nat (S k) =? 0) with false by (symmetry; apply Z.eqb_neq; lia).
    cbn [negb].
    destruct c as [rt mr pb q snt scr clk]. cbn in Hq, Hs. subst q scr.
    unfold after_send, set_clock, next_replies.
    cbn [RESPONSE_TIMEOUT MAX_RETRIES pause_before_send responses sent
         script clock tl app].
    rewrite IH by reflexivity.
    cbn [RESPONSE_TIMEOUT MAX_RETRIES pause_before_send responses sent
         script clock].
    rewrite <- app_assoc.
    replace (clk + pb + rt + Z.of_nat (S k) * (pb + rt))
      with (clk + Z.of_nat (S (S k)) * (pb + rt)) by lia.
    reflexivity.
Qed.

(** C4: what the code does with the default configuration when the first
    request is not answered: the request is sent once, the client waits
    RESPONSE_TIMEOUT (300 ms) and raises SdoCommunicationError at that
    first timeout; the request is not sent again, whatever the server
    would have done next ([rest]). *)
Theorem default_client_gives_up_after_first_timeout
        (fuel : nat) (request : bytes) (rest : list bus_event) :
  request_response (S fuel) request (default_client (Deliver [] :: rest))
  = (Raise (SdoCommunicationError "No SDO response received"),
     mkClient 300 1 0 [] [request] rest 300).
Proof.
  unfold request_response. mstep. unfold default_client, when.
  cbn [responses negb MAX_RETRIES]. mstep. cbn [request_response_loop].
  rewrite (bind_returns _ _ _ _ _ (send_request_accepted fuel request
                (mkClient 300 1 0 [] [] (Deliver [] :: rest) 0) eq_refl)).
  unfold try_except. rewrite read_response_timeout by reflexivity.
  reflexivity.
Qed.

(** * Choice of the download path *)

Lemma initiate_request_value {St} (index subindex : Z) (size : option Z)
      (s : St) :
  in_range 16 index = true -> in_range 8 subindex = true ->
  match size with Some n => in_range 32 n = true | None => True end ->
  WritableStream.initiate_request index subindex size s
  = (Return (download_initiate_request index subindex size), s).
Proof.
  intros Hi Hs Hn. unfold WritableStream.initiate_request.
  destruct size as [n|].
  - unfold pack_into_uint. change (8 * Z.of_nat 4) with 32. rewrite Hn.
    cbn [andb]. change (4 + Z.of_nat 4 <=? len (bytearray 8)) with true.
    cbv iota. mstep.
    change (slice_assign 4 (4 + Z.of_nat 4) (le_bytes 4 n) (bytearray 8))
      with (0 :: 0 :: 0 :: 0 :: le_bytes 4 n).
    rewrite SDO_STRUCT_pack_into_head by (assumption || reflexivity).
    reflexivity.
  - change (bytearray 8) with (0 :: 0 :: 0 :: 0 :: [0; 0; 0; 0]).
    rewrite SDO_STRUCT_pack_into_head by (assumption || reflexivity).
    reflexivity.
Qed.

Lemma expedited_command_in_range (n : Z) :
  0 <= n <= 4 ->
  in_range 8 (Z.lor (Z.lor (Z.lor REQUEST_DOWNLOAD EXPEDITED) SIZE_SPECIFIED)
                    (Z.shiftl (4 - n) 2)) = true.
Proof.
  intros H.
  assert (n = 0 \/ n = 1 \/ n = 2 \/ n = 3 \/ n = 4) as Hcases by lia.
  destruct Hcases as [-> | [-> | [-> | [-> | ->]]]]; reflexivity.
Qed.

(** C5: a download is expedited exactly when the size is known, at most 4
    and segmented mode is not forced; [set_data] forces it exactly for
    DOMAIN objects.  The expedited descriptor only prepares its header; in
    every other case the client sends the initiate request of a segmented
    download, which carries the little-endian size in bytes 4..8 (and the
    size-indicator bit) exactly when the size is known. *)
Theorem download_path_selection
        (DOMAIN : Z) (index subindex : Z) (size : option Z)
        (force_segment : bool) :
  in_range 16 index = true ->
  in_range 8 subindex = true ->
  match size with Some n => in_range 32 n = true | None => True end ->
  (WritableStream.use_segmented size force_segment = false
   <-> exists n, size = Some n /\ n <= 4 /\ force_segment = false)
  /\ (forall data_type,
         set_data_force_segment DOMAIN data_type = true <-> data_type = DOMAIN)
  /\ (forall fuel data_type data,
         set_data_stream DOMAIN fuel data_type index subindex data
         = WritableStream.__init__ fuel index subindex (Some (len data))
             (set_data_force_segment DOMAIN data_type))
  /\ (forall fuel c n,
         size = Some n -> n <= 4 -> force_segment = false ->
         WritableStream.__init__ fuel index subindex size force_segment c
         = (Return (WritableStream.mk
                      (Some n) 0 0
                      (Some (expedited_header index subindex n)) false),
            c))
  /\ (forall fuel c payload more,
         WritableStream.use_segmented size force_segment = true ->
         accepts c = true ->
         next_replies c = (RESPONSE_DOWNLOAD :: payload) :: more ->
         WritableStream.__init__ (S fuel) index subindex size force_segment c
         = (Return (WritableStream.mk size 0 0 None false),
            after_exchange (download_initiate_request index subindex size) c)).
Proof.
  intros Hi Hs Hn. repeat split.
  - unfold WritableStream.use_segmented. destruct size as [n|]; [|discriminate].
    intros H. apply orb_false_iff in H as [H1 H2]. apply Z.ltb_ge in H1.
    exists n. auto.
  - intros (n & -> & Hle & ->). unfold WritableStream.use_segmented.
    apply orb_false_iff. split; [apply Z.ltb_ge; lia | reflexivity].
  - unfold set_data_force_segment. apply Z.eqb_eq.
  - unfold set_data_force_segment. apply Z.eqb_eq.
  - intros fuel c n -> Hle ->. unfold WritableStream.__init__.
    unfold WritableStream.use_segmented.
    replace (4 <? n) with false by (symmetry; apply Z.ltb_ge; lia).
    cbn [orb]. apply in_range_spec in Hn.
    rewrite (bind_returns _ _ _ _ _
               (SDO_STRUCT_pack_value _ index subindex c
                  (expedited_command_in_range n ltac:(lia)) Hi Hs)).
    reflexivity.
  - intros fuel c payload more Hseg Ha Hr. unfold WritableStream.__init__.
    rewrite Hseg.
    rewrite (bind_returns _ _ _ _ _
               (initiate_request_value index subindex size c Hi Hs Hn)).
    rewrite (bind_returns _ _ _ _ _
               (request_response_answered fuel _ _ _ c RESPONSE_DOWNLOAD
                  Ha Hr eq_refl ltac:(discriminate))).
    rewrite (bind_returns _ _ _ _ _
               (unpack_command_at (RESPONSE_DOWNLOAD :: payload)
                  RESPONSE_DOWNLOAD _ eq_refl)).
    reflexivity.
Qed.

(** Scenario 2 (expedited download of 4 bytes at 0x1400:2) prepares the
    header [23 00 14 02] and sends nothing; a 5-byte value, and a 2-byte
    value of a DOMAIN object, open a segmented download. *)
Lemma scenario_2_download_paths :
  WritableStream.__init__ 0 0x1400 2 (Some 4) false (default_client [])
  = (Return (WritableStream.mk (Some 4) 0 0 (Some [0x23; 0x00; 0x14; 0x02])
                               false),
     default_client [])
  /\ WritableStream.__init__ 1 0x1400 2 (Some 5) false
       (default_client [Deliver [[0x60; 0x00; 0x14; 0x02; 0; 0; 0; 0]]])
     = (Return (WritableStream.mk (Some 5) 0 0 None false),
        mkClient 300 1 0 [] [[0x21; 0x00; 0x14; 0x02; 5; 0; 0; 0]] [] 0)
  /\ set_data_stream 15 1 15 0x1400 2 [7; 8]
       (default_client [Deliver [[0x60; 0x00; 0x14; 0x02; 0; 0; 0; 0]]])
     = (Return (WritableStream.mk (Some 2) 0 0 None false),
        mkClient 300 1 0 [] [[0x21; 0x00; 0x14; 0x02; 2; 0; 0; 0]] [] 0).
Proof.
  split; [|split].
  - exact (proj1 (proj2 (proj2 (proj2
             (download_path_selection 15 0x1400 2 (Some 4) false
                eq_refl eq_refl eq_refl))))
             0%nat (default_client []) 4 eq_refl ltac:(lia) eq_refl).
  - exact (proj2 (proj2 (proj2 (proj2
             (download_path_selection 15 0x1400 2 (Some 5) false
                eq_refl eq_refl eq_refl))))
             0%nat
             (default_client [Deliver [[0x60; 0x00; 0x14; 0x02; 0; 0; 0; 0]]])
             [0x00; 0x14; 0x02; 0; 0; 0; 0] [] eq_refl eq_refl eq_refl).
  - rewrite (proj1 (proj2 (proj2
               (download_path_selection 15 0x1400 2 (Some 2) true
                  eq_refl eq_refl eq_refl))) 1%nat 15 [7; 8]).
    exact (proj2 (proj2 (proj2 (proj2
             (download_path_selection 15 0x1400 2 (Some 2) true
                eq_refl eq_refl eq_refl))))
             0%nat
             (default_client [Deliver [[0x60; 0x00; 0x14; 0x02; 0; 0; 0; 0]]])
             [0x00; 0x14; 0x02; 0; 0; 0; 0] [] eq_refl eq_refl eq_refl).
Defined.

(** * Block upload and its CRC *)

Lemma land_lxor_distr (a b c : Z) :
  Z.land (Z.lxor a b) c = Z.lxor (Z.land a c) (Z.land b c).
Proof.
  apply Z.bits_inj'. intros n _.
  rewrite Z.land_spec, !Z.lxor_spec, !Z.land_spec.
  destruct (Z.testbit a n), (Z.testbit b n), (Z.testbit c n); reflexivity.
Qed.

Lemma crctab_hqx_16_bits (i : nat) :
  Z.land (nth i crctab_hqx 0) 0xffff = nth i crctab_hqx 0.
Proof.
  assert (H : forallb (fun v => Z.land v 0xffff =? v) crctab_hqx = true)
    by (vm_compute; reflexivity).
  rewrite forallb_forall in H.
  destruct (Nat.lt_ge_cases i (List.length crctab_hqx)) as [Hlt | Hge].
  - apply Z.eqb_eq, H, nth_In, Hlt.
  - now rewrite nth_overflow.
Qed.

Lemma crc_hqx_step_16_bits (crc b : Z) :
  Z.land (crc_hqx_step crc b) 0xffff = crc_hqx_step crc b.
Proof.
  unfold crc_hqx_step. rewrite land_lxor_distr, crctab_hqx_16_bits.
  now rewrite <- Z.land_assoc.
Qed.

Lemma fold_crc_16_bits (data : bytes) (crc : Z) :
  Z.land crc 0xffff = crc ->
  Z.land (fold_left crc_hqx_step data crc) 0xffff
  = fold_left crc_hqx_step data crc.
Proof.
  revert crc. induction data as [|b data IH]; intros crc H; [exact H|].
  cbn [fold_left]. apply IH, crc_hqx_step_16_bits.
Qed.

Lemma crc_hqx_16_bits (data : bytes) (value : Z) :
  Z.land (crc_hqx data value) 0xffff = crc_hqx data value.
Proof.
  unfold crc_hqx. apply fold_crc_16_bits. now rewrite <- Z.land_assoc.
Qed.

(** Feeding the CRC chunk by chunk is feeding it the concatenation. *)
Lemma crc_hqx_app (a b : bytes) (value : Z) :
  crc_hqx (a ++ b) value = crc_hqx b (crc_hqx a value).
Proof.
  unfold crc_hqx at 1 2. rewrite fold_left_app.
  now rewrite crc_hqx_16_bits.
Qed.

Lemma crc_hqx_nil_0 : crc_hqx [] 0 = 0.
Proof. reflexivity. Qed.

Example crc_hqx_check_value :
  crc_hqx [49; 50; 51; 52; 53; 54; 55; 56; 57] 0 = 0x31C3.
Proof. reflexivity. Qed.

Lemma testbit_above (y n : Z) : 0 <= y < 2 ^ n -> 0 <= n -> Z.testbit y n = false.
Proof.
  intros [H0 H1] Hn. destruct (Z.eq_dec y 0) as [-> | Hy].
  - apply Z.bits_0.
  - apply Z.bits_above_log2; [assumption|].
    apply Z.log2_lt_pow2; lia.
Qed.

Lemma crc16_ccitt_bit_lxor (x y : Z) (m : bool) :
  0 <= y < 2 ^ 15 ->
  crc16_ccitt_bit (Z.lxor x y) m = Z.lxor (crc16_ccitt_bit x m) (2 * y).
Proof.
  intros Hy. unfold crc16_ccitt_bit.
  rewrite Z.lxor_spec, (testbit_above y 15 Hy ltac:(lia)), xorb_false_r.
  rewrite Z.shiftl_lxor, land_lxor_distr.
  assert (Hs : Z.land (Z.shiftl y 1) 0xffff = 2 * y).
  { change 0xffff with (Z.ones 16). rewrite Z.land_ones by lia.
    rewrite Z.shiftl_mul_pow2 by lia. change (2 ^ 1) with 2.
    change (2 ^ 15) with 32768 in Hy. change (2 ^ 16) with 65536.
    rewrite Z.mod_small; lia. }
  rewrite Hs.
  destruct (xorb (Z.testbit x 15) m); [|reflexivity].
  rewrite !Z.lxor_assoc. f_equal. apply Z.lxor_comm.
Qed.

Lemma crc16_ccitt_bits_lxor (b : Z) (positions : list Z) (x y : Z) :
  0 <= y ->
  y * 2 ^ Z.of_nat (List.length positions) < 2 ^ 16 ->
  fold_left (fun crc i => crc16_ccitt_bit crc (Z.testbit b i)) positions
            (Z.lxor x y)
  = Z.lxor (fold_left (fun crc i => crc16_ccitt_bit crc (Z.testbit b i))
                      positions x)
           (y * 2 ^ Z.of_nat (List.length positions)).
Proof.
  revert x y. induction positions as [|i positions IH]; intros x y H0 H1.
  - cbn. now rewrite Z.mul_1_r.
  - cbn [fold_left List.length] in *.
    rewrite Nat2Z.inj_succ, Z.pow_succ_r in * by lia.
    set (P := 2 ^ Z.of_nat (List.length positions)) in *.
    assert (HP : 0 < P) by (apply Z.pow_pos_nonneg; lia).
    change (2 ^ 16) with 65536 in *.
    assert (Hy : 0 <= y < 2 ^ 15) by (change (2 ^ 15) with 32768; nia).
    rewrite crc16_ccitt_bit_lxor by exact Hy.
    rewrite IH by nia. f_equal. ring.
Qed.

Lemma crc16_ccitt_byte_lxor (x l b : Z) :
  0 <= l < 256 ->
  crc16_ccitt_byte (Z.lxor x l) b
  = Z.lxor (crc16_ccitt_byte x b) (Z.shiftl l 8).
Proof.
  intros Hl. unfold crc16_ccitt_byte.
  rewrite crc16_ccitt_bits_lxor by (cbn [List.length Z.of_nat]; lia).
  rewrite Z.shiftl_mul_pow2 by lia. reflexivity.
Qed.

Lemma crctab_hqx_is_the_polynomial (h b : Z) :
  0 <= h < 256 -> 0 <= b < 256 ->
  crc16_ccitt_byte (Z.shiftl h 8) b
  = nth (Z.to_nat (Z.lxor h b)) crctab_hqx 0.
Proof.
  assert (H : forallb
                (fun h =>
                   forallb
                     (fun b =>
                        crc16_ccitt_byte (Z.shiftl (Z.of_nat h) 8) (Z.of_nat b)
                        =? nth (Z.to_nat (Z.lxor (Z.of_nat h) (Z.of_nat b)))
                               crctab_hqx 0)
                     (seq 0 256))
                (seq 0 256) = true)
    by (vm_compute; reflexivity).
  intros Hh Hb. rewrite forallb_forall in H.
  specialize (H (Z.to_nat h)). rewrite forallb_forall in H.
  specialize (H ltac:(apply in_seq; lia) (Z.to_nat b) ltac:(apply in_seq; lia)).
  rewrite !Z2Nat.id in H by lia. now apply Z.eqb_eq.
Qed.

Lemma split_16_bits (crc : Z) :
  crc = Z.lxor (Z.shiftl (Z.shiftr crc 8) 8) (Z.land crc 0xff).
Proof.
  apply Z.bits_inj'. intros i Hi.
  rewrite Z.lxor_spec, Z.land_spec. change 0xff with (Z.ones 8).
  destruct (Z.lt_ge_cases i 8) as [Hlt | Hge].
  - rewrite Z.shiftl_spec_low by assumption.
    rewrite Z.ones_spec_low by lia. now rewrite andb_true_r.
  - rewrite Z.shiftl_spec, Z.shiftr_spec by lia.
    rewrite Z.ones_spec_high by lia.
    rewrite andb_false_r, xorb_false_r. f_equal. lia.
Qed.

Lemma fits_16_bits (v : Z) : Z.land v 0xffff = v -> 0 <= v < 65536.
Proof.
  intros H. rewrite <- H. change 0xffff with (Z.ones 16).
  rewrite Z.land_ones by lia. apply Z.mod_pos_bound. reflexivity.
Qed.

Lemma crc_hqx_step_is_ccitt (crc b : Z) :
  Z.land crc 0xffff = crc ->
  0 <= b < 256 ->
  crc_hqx_step crc b = crc16_ccitt_byte crc b.
Proof.
  intros Hcrc Hb. apply fits_16_bits in Hcrc.
  assert (Hh : 0 <= Z.shiftr crc 8 < 256).
  { rewrite Z.shiftr_div_pow2 by lia. change (2 ^ 8) with 256.
    split; [apply Z.div_pos; lia | apply Z.div_lt_upper_bound; lia]. }
  assert (Hl : 0 <= Z.land crc 0xff < 256).
  { change 0xff with (Z.ones 8). rewrite Z.land_ones by lia.
    apply Z.mod_pos_bound. reflexivity. }
  rewrite (split_16_bits crc) at 2.
  rewrite crc16_ccitt_byte_lxor by assumption.
  rewrite crctab_hqx_is_the_polynomial by assumption.
  unfold crc_hqx_step. rewrite Z.lxor_comm. f_equal.
  change 0xff00 with (Z.shiftl 0xff 8). now rewrite Z.shiftl_land.
Qed.

Lemma fold_crc_is_ccitt (data : bytes) (crc : Z) :
  Z.land crc 0xffff = crc ->
  Forall (fun b => 0 <= b < 256) data ->
  fold_left crc_hqx_step data crc = fold_left crc16_ccitt_byte data crc.
Proof.
  revert crc. induction data as [|b data IH]; intros crc Hcrc Hall;
    [reflexivity|].
  inversion Hall; subst. cbn [fold_left].
  rewrite <- crc_hqx_step_is_ccitt by assumption.
  apply IH; [apply crc_hqx_step_16_bits | assumption].
Qed.

(** On bytes, [crc_hqx] started at 0 is the CRC-16-CCITT of the message. *)
Lemma crc_hqx_is_crc16_ccitt (data : bytes) :
  Forall (fun b => 0 <= b < 256) data ->
  crc_hqx data 0 = crc16_ccitt data.
Proof.
  intros H. unfold crc_hqx, crc16_ccitt. change (Z.land 0 0xffff) with 0.
  now apply fold_crc_is_ccitt.
Qed.

Module BlockUploadFacts.
Import BlockUploadStream.

Local Abbreviation agree := block_upload_agree.
Local Abbreviation keeps := block_upload_keeps.

Lemma agree_refl (s : t) : agree s s.
Proof. repeat split. Qed.

Lemma agree_trans (s0 s1 s2 : t) : agree s0 s1 -> agree s1 s2 -> agree s0 s2.
Proof. unfold block_upload_agree. intuition congruence. Qed.

Lemma keeps_ret {A} (a : A) : keeps (ret a).
Proof. intros st r st' [= _ <-]. apply agree_refl. Qed.

Lemma keeps_raise {A} (e : exn) : keeps (@raise _ A e).
Proof. intros st r st' [= _ <-]. apply agree_refl. Qed.

Lemma keeps_out_of_fuel {A} : keeps (@out_of_fuel _ A).
Proof. intros st r st' [= _ <-]. apply agree_refl. Qed.

Lemma keeps_self : keeps self.
Proof. intros st r st' [= _ <-]. apply agree_refl. Qed.

Lemma keeps_on_client {A} (m : M SdoClient A) : keeps (on_client m).
Proof.
intros [s c] r st'. unfold on_client. cbn [fst snd].
destruct (m c) as [o c1]. intros [= _ <-]. apply agree_refl.
Qed.

Lemma keeps_update (f : t -> t) :
(forall s, agree s (f s)) -> keeps (update f).
Proof. intros Hf [s c] r st' [= _ <-]. apply Hf. Qed.

Lemma keeps_bind {A B} (m : M (t * SdoClient) A)
    (k : A -> M (t * SdoClient) B) :
keeps m -> (forall a, keeps (k a)) -> keeps (bind m k).
Proof.
intros Hm Hk st r st'. rewrite bind_unfold.
destruct (m st) as [[a | e |] st1] eqn:E.
- intros H. eapply agree_trans; [eapply Hm, E | eapply Hk, H].
- intros [= _ <-]. eapply Hm, E.
- intros [= _ <-]. eapply Hm, E.
Qed.

Lemma keeps_try_except {A} (m : M (t * SdoClient) A)
    (handler : exn -> option (M (t * SdoClient) A)) :
keeps m -> (forall e h, handler e = Some h -> keeps h) ->
keeps (try_except m handler).
Proof.
intros Hm Hh st r st'. unfold try_except.
destruct (m st) as [[a | e |] st1] eqn:E.
- intros [= _ <-]. eapply Hm, E.
- destruct (handler e) as [h|] eqn:Eh.
  + intros H. eapply agree_trans; [eapply Hm, E | eapply Hh, H; exact Eh].
  + intros [= _ <-]. eapply Hm, E.
- intros [= _ <-]. eapply Hm, E.
Qed.

Lemma keeps_when (b : bool) (m : M (t * SdoClient) unit) :
keeps m -> keeps (when b m).
Proof. destruct b; [trivial | intros _; apply keeps_ret]. Qed.

Lemma keeps_unpack (n : nat) (buf : bytes) (offset : Z) :
keeps (unpack_from_uint n buf offset).
Proof.
unfold unpack_from_uint.
destruct (_ <=? _); [apply keeps_ret | apply keeps_raise].
Qed.

Lemma keeps_setitem (buf : bytes) (i v : Z) : keeps (setitem buf i v).
Proof.
unfold setitem. destruct (in_range 8 v); [apply keeps_ret | apply keeps_raise].
Qed.

Lemma agree_set_ackseq (v : Z) (s : t) : agree s (set_ackseq v s).
Proof. repeat split. Qed.

Lemma agree_set_server_crc (v : option Z) (s : t) :
agree s (set_server_crc v s).
Proof. repeat split. Qed.

Lemma agree_set_done (b : bool) (s : t) : agree s (set_done b s).
Proof. repeat split. Qed.

Ltac keeps_step :=
match goal with
| |- keeps (bind _ _) => apply keeps_bind; [|intro]
| |- keeps (ret _) => apply keeps_ret
| |- keeps (raise _) => apply keeps_raise
| |- keeps out_of_fuel => apply keeps_out_of_fuel
| |- keeps self => apply keeps_self
| |- keeps (on_client _) => apply keeps_on_client
| |- keeps (unpack_from_uint _ _ _) => apply keeps_unpack
| |- keeps (setitem _ _ _) => apply keeps_setitem
| |- keeps (update _) =>
    apply keeps_update;
    first [ apply agree_set_ackseq | apply agree_set_server_crc
          | apply agree_set_done ]
| |- keeps (when _ _) => apply keeps_when
| |- keeps (if ?b then _ else _) => destruct b
| |- keeps (let '(_, _) := ?x in _) => destruct x
end.

Lemma keeps_ack_block (fuel : nat) : keeps (_ack_block fuel).
Proof. unfold _ack_block. repeat keeps_step. Qed.

Lemma keeps_retransmit_loop (fuel : nat) (end_time : Z) :
keeps (_retransmit_loop fuel end_time).
Proof.
induction fuel as [|fuel IH]; cbn [_retransmit_loop].
- apply keeps_out_of_fuel.
- repeat keeps_step; apply IH.
Qed.

Lemma keeps_retransmit (fuel : nat) : keeps (_retransmit fuel).
Proof.
unfold _retransmit.
repeat keeps_step; auto using keeps_ack_block, keeps_retransmit_loop.
Qed.

Lemma keeps_end_upload (fuel : nat) : keeps (_end_upload fuel).
Proof. unfold _end_upload. repeat keeps_step. Qed.

(** One frame read with CRC enabled feeds exactly the returned bytes to
  the CRC and advances [pos] by their number. *)
Lemma read_frame_accumulates (fuel : nat) (s s' : t) (c c' : SdoClient)
    (data : bytes) :
crc_supported s = true ->
read_frame fuel (s, c) = (Return data, (s', c')) ->
crc_supported s' = true
/\ _crc s' = crc_hqx data (_crc s)
/\ pos s' = pos s + len data.
Proof.
intros Hcrc H. unfold read_frame in H.
apply bind_Return_inv in H as (response & [s1 c1] & E1 & H).
assert (A1 : agree s s1).
{ eapply (keeps_try_except _ _ (keeps_on_client read_response)) in E1;
    [exact E1|].
  intros e h. destruct e; try discriminate. intros [= <-].
  apply keeps_retransmit. }
apply bind_Return_inv in H as (res_command & [s2 c2] & E2 & H).
apply keeps_unpack in E2. cbn [fst] in E2.
rewrite bind_self in H. cbn [fst] in H.
apply bind_Return_inv in H as ([response' res_command'] & [s3 c3] & E3 & H).
assert (A3 : agree s2 s3).
{ refine ((_ : keeps _) (s2, c2) _ (s3, c3) E3).
  repeat keeps_step; apply keeps_retransmit. }
rewrite bind_self in H. cbn [fst] in H.
apply bind_Return_inv in H as (u4 & [s4 c4] & E4 & H).
apply (keeps_when _ _ (keeps_ack_block fuel)) in E4. cbn [fst] in E4.
apply bind_Return_inv in H as (data0 & [s5 c5] & E5 & H).
assert (A5 : agree s4 s5).
{ refine ((_ : keeps _) (s4, c4) _ (s5, c5) E5).
  repeat keeps_step; apply keeps_end_upload. }
assert (A : agree s s5)
  by (repeat (eapply agree_trans; [eassumption|]); apply agree_refl).
destruct A as (Ac & Acrc & Apos).
rewrite bind_self in H. cbn [fst] in H. rewrite Ac, Hcrc in H.
unfold when at 1 in H.
apply bind_Return_inv in H as (u6 & [s6 c6] & E6 & H).
rewrite bind_update, bind_self in E6. cbn [fst] in E6.
assert (Hs6 : s6 = set_crc (crc_hqx data0 (_crc s5)) s5).
{ unfold when in E6.
  destruct (_done (set_crc (crc_hqx data0 (_crc s5)) s5)).
  - destruct (negb _).
    + apply bind_Return_inv in E6 as (? & ? & _ & E6). discriminate.
    + unfold ret in E6. now inversion E6.
  - unfold ret in E6. now inversion E6. }
rewrite bind_update in H. unfold ret in H. inversion H; subst.
cbn. rewrite Ac, Acrc, Apos. auto.
Qed.

End BlockUploadFacts.

Module BlockUploadCrc.
Import BlockUploadStream BlockUploadFacts.

Lemma read_once_accumulates (fuel : nat) (n : Z) (s s' : t)
    (c c' : SdoClient) (data prefix : bytes) :
0 <= n ->
crc_supported s = true ->
_crc s = crc_hqx prefix 0 ->
read fuel (Some n) (s, c) = (Return data, (s', c')) ->
crc_supported s' = true
/\ _crc s' = crc_hqx (prefix ++ data) 0
/\ pos s' = pos s + len data.
Proof.
intros Hn Hsup Hcrc H. destruct fuel as [|fuel]; [discriminate|].
cbn [read] in H. rewrite bind_self in H. cbn [fst] in H.
destruct (_done s).
- unfold ret in H. inversion H; subst. rewrite app_nil_r.
  repeat split; auto. cbn. lia.
- replace (n <? 0) with false in H by (symmetry; apply Z.ltb_ge; lia).
  apply read_frame_accumulates in H as (H1 & H2 & H3); [|assumption].
  rewrite crc_hqx_app, <- Hcrc. auto.
Qed.

Lemma readall_accumulates (fuel' fuel : nat) (res : bytes) (s s' : t)
    (c c' : SdoClient) (data prefix : bytes) (p0 : Z) :
crc_supported s = true ->
_crc s = crc_hqx (prefix ++ res) 0 ->
pos s = p0 + len res ->
readall fuel' (read fuel (Some DEFAULT_BUFFER_SIZE)) res (s, c)
= (Return data, (s', c')) ->
crc_supported s' = true
/\ _crc s' = crc_hqx (prefix ++ data) 0
/\ pos s' = p0 + len data.
Proof.
revert res s c. induction fuel' as [|fuel' IH]; intros res s c Hsup Hcrc Hpos H;
  [discriminate|].
cbn [readall] in H.
apply bind_Return_inv in H as (chunk & [s1 c1] & E & H).
apply (read_once_accumulates _ _ _ _ _ _ _ (prefix ++ res)) in E
  as (H1 & H2 & H3); try assumption; [|unfold DEFAULT_BUFFER_SIZE; lia].
destruct chunk as [|x chunk].
- unfold ret in H. inversion H; subst.
  rewrite app_nil_r in H2. cbn in H3. repeat split; auto. lia.
- apply IH in H; auto.
  + now rewrite app_assoc.
  + rewrite H3, Hpos. unfold len. rewrite !length_app. lia.
Qed.

Lemma read_accumulates (fuel : nat) (size : option Z) (s s' : t)
    (c c' : SdoClient) (data prefix : bytes) :
crc_supported s = true ->
_crc s = crc_hqx prefix 0 ->
read fuel size (s, c) = (Return data, (s', c')) ->
crc_supported s' = true
/\ _crc s' = crc_hqx (prefix ++ data) 0
/\ pos s' = pos s + len data.
Proof.
intros Hsup Hcrc H.
destruct (match size with None => true | Some n => n <? 0 end) eqn:Hsz.
- destruct fuel as [|fuel]; [discriminate|].
  cbn [read] in H. rewrite bind_self in H. cbn [fst] in H.
  destruct (_done s).
  + unfold ret in H. inversion H; subst. rewrite app_nil_r.
    repeat split; auto. cbn. lia.
  + rewrite Hsz in H.
    eapply readall_accumulates in H; eauto.
    * now rewrite app_nil_r.
    * cbn. lia.
- destruct size as [n|]; [|discriminate].
  apply Z.ltb_ge in Hsz. eapply read_once_accumulates; eauto.
Qed.

End BlockUploadCrc.

Module BlockUploadEnd.
Import BlockUploadStream.

(** The last data frame of a block upload with CRC enabled: the frame is
  acknowledged, the END frame gives [n] and the server CRC, the bytes
  [1..8-n] of the data frame go to the CRC, and a CRC that differs
  makes the client send abort 0x05040004 and raise. *)
Lemma read_last_frame (fuel : nat) (size : Z) (s : t) (c : SdoClient)
    (cmd : Z) (payload : bytes) (more : list bytes)
    (ecmd crc_lo crc_hi : Z) (etail : bytes) (more2 : list bytes) :
let frame := cmd :: payload in
let seqno := Z.land cmd 0x7F in
let n := Z.land (Z.shiftr ecmd 2) 0x7 in
let data := slice 1 (8 - n) frame in
let server_crc := crc_lo + 256 * crc_hi in
let c_end :=
  set_responses more2
    (after_send (block_upload_ack_request seqno (blksize s)) c) in
let s_end (pos' : Z) :=
  mk (BlockUploadStream.size s) (blksize s) true true pos'
     (crc_hqx data (_crc s)) (Some server_crc)
     (if seqno =? blksize s then 0 else seqno) (closed s) in
0 <= size ->
_done s = false ->
crc_supported s = true ->
in_range 8 (blksize s) = true ->
0 <= _ackseq s ->
responses c = frame :: more ->
seqno = _ackseq s + 1 ->
Z.land cmd NO_MORE_BLOCKS <> 0 ->
accepts c = true ->
more ++ next_replies c = (ecmd :: crc_lo :: crc_hi :: etail) :: more2 ->
Z.land ecmd 0xE0 = RESPONSE_BLOCK_UPLOAD ->
Z.land ecmd 0x3 = END_BLOCK_TRANSFER ->
(server_crc = crc_hqx data (_crc s) ->
 read (S fuel) (Some size) (s, c)
 = (Return data, (s_end (pos s + len data), c_end)))
/\ (server_crc <> crc_hqx data (_crc s) ->
    accepts c_end = true ->
    read (S fuel) (Some size) (s, c)
    = (Raise (SdoCommunicationError "CRC is not OK"),
       (s_end (pos s), after_send (abort_frame 0x05040004) c_end))).
Proof.
intros frame seqno n data server_crc c_end s_end
       Hsize Hdone Hsup Hblk Hack Hq Hseq Hlast Ha Hend Hclass Hsub.
assert (Hne : cmd <> RESPONSE_ABORTED).
{ intros ->. subst seqno. change (Z.land RESPONSE_ABORTED 127) with 0 in Hseq.
  lia. }
assert (Hene : ecmd <> RESPONSE_ABORTED)
  by (eapply class_not_aborted; [exact Hclass | discriminate]).
set (c1 := set_responses more c).
set (ack := block_upload_ack_request seqno (blksize s)).
set (s1 := set_ackseq seqno s).
set (s2 := set_ackseq (if seqno =? blksize s then 0 else seqno) s).
assert (Hc1 : accepts c1 = true) by (destruct c; exact Ha).
(* the acknowledgment *)
assert (Hackb : _ack_block (S fuel) (s1, c1)
                = (Return tt, (s2, after_send ack c1))).
{ unfold _ack_block. rewrite bind_self. cbn [fst].
  rewrite (bind_returns _ _ _ _ _
             (setitem_fresh_0
                (Z.lor REQUEST_BLOCK_UPLOAD BLOCK_TRANSFER_RESPONSE)
                _ eq_refl)).
  unfold setitem.
  replace (in_range 8 (_ackseq s1)) with true
    by (symmetry; apply land_7F_byte).
  rewrite bind_ret.
  replace (in_range 8 (blksize s1)) with true by (symmetry; exact Hblk).
  rewrite bind_ret.
  rewrite (bind_returns _ _ _ _ _
             (on_client_returns _ s1 _ _ _
                (send_request_accepted fuel _ c1 Hc1))).
  unfold when, s1, s2. destruct s as [sz bs cs dn ps cr sc aq cl].
  cbn [_ackseq blksize set_ackseq].
  destruct (seqno =? bs); reflexivity. }
(* the END frame *)
set (c2 := after_send ack c1).
assert (Hq2 : responses c2 = (ecmd :: crc_lo :: crc_hi :: etail) :: more2).
{ unfold c2, c1, after_send, next_replies in *. destruct c; cbn in *.
  exact Hend. }
assert (Hc3 : set_responses more2 c2 = c_end).
{ unfold c_end, c2, c1. destruct c; reflexivity. }
assert (Hendu : _end_upload (S fuel) (s2, c2)
                = (Return n, (set_server_crc (Some server_crc) s2, c_end))).
{ unfold _end_upload.
  rewrite (bind_returns _ _ _ _ _
             (on_client_returns _ s2 _ _ _
                (read_response_frame c2 _ more2 ecmd Hq2 eq_refl Hene))).
  rewrite (bind_returns _ _ _ _ _
             (unpack_command_at (ecmd :: crc_lo :: crc_hi :: etail)
                ecmd _ eq_refl)).
  rewrite (bind_returns _ _ _ _ _
             (unpack_from_uint_ok 2 (ecmd :: crc_lo :: crc_hi :: etail) 1 _
                ltac:(unfold len; cbn [List.length]; lia))).
  change (slice 1 (1 + Z.of_nat 2) (ecmd :: crc_lo :: crc_hi :: etail))
    with [crc_lo; crc_hi].
  cbn [le_value]. replace (crc_lo + 256 * (crc_hi + 256 * 0))
    with server_crc by (unfold server_crc; lia).
  rewrite bind_update. rewrite Hclass, Hsub, !Z.eqb_refl. cbn [negb].
  rewrite Hc3. reflexivity. }
(* up to the CRC check *)
assert (Hrun : forall r,
  (let s3 := set_done true (set_server_crc (Some server_crc) s2) in
   bind (when (crc_supported s3)
           (update (set_crc (crc_hqx data (_crc s3))) ;;
            s4 <- self ;;
            when (_done s4)
              (if negb match _server_crc s4 with
                       | Some v => v =? _crc s4
                       | None => false
                       end
               then on_client (abort (S fuel) 0x05040004) ;;
                    raise (SdoCommunicationError "CRC is not OK")
               else ret tt)))
        (fun _ => update (fun s => set_pos (pos s + len data) s) ;;
                  ret data)
        (s3, c_end)) = r ->
  read (S fuel) (Some size) (s, c) = r).
{ intros r <-. cbn [read]. rewrite bind_self. cbn [fst]. rewrite Hdone.
  replace (size <? 0) with false by (symmetry; apply Z.ltb_ge; lia).
  unfold read_frame.
  rewrite (bind_returns _ _ _ _ _
             (try_except_returns _ _ _ _ _
                (on_client_returns _ s _ _ _
                   (read_response_frame c _ more cmd Hq eq_refl Hne)))).
  rewrite (bind_returns _ _ _ _ _
             (unpack_command_at (cmd :: payload) cmd _ eq_refl)).
  rewrite bind_self. cbn [fst]. fold seqno. rewrite Hseq, Z.eqb_refl.
  mstep. rewrite <- Hseq. fold s1. fold c1. cbn [fst].
  rewrite (truthy_true _ Hlast), orb_true_r. unfold when at 1.
  rewrite (bind_returns _ _ _ _ _ Hackb). mstep.
  rewrite (bind_returns _ _ _ _ _ Hendu). mstep. cbn [fst].
  reflexivity. }
assert (Hs3 : set_done true (set_server_crc (Some server_crc) s2)
              = mk (BlockUploadStream.size s) (blksize s) true true (pos s)
                   (_crc s) (Some server_crc)
                   (if seqno =? blksize s then 0 else seqno) (closed s)).
{ unfold s2. destruct s as [sz bs cs dn ps cr sc aq cl].
  cbn in Hsup. subst cs. reflexivity. }
split.
- intros Hcrc. apply Hrun. cbv zeta. rewrite Hs3.
  cbn [crc_supported when _crc]. mstep.
  cbn [set_crc fst _done _server_crc _crc BlockUploadStream.size blksize
       crc_supported pos _ackseq closed].
  subst s_end. cbv beta. rewrite <- Hcrc, Z.eqb_refl. cbn [negb].
  unfold when. mstep. reflexivity.
- intros Hcrc Hacc. apply Hrun. cbv zeta. rewrite Hs3.
  cbn [crc_supported when _crc]. mstep.
  cbn [set_crc fst _done _server_crc _crc BlockUploadStream.size blksize
       crc_supported pos _ackseq closed].
  apply Z.eqb_neq in Hcrc. rewrite Hcrc. cbn [negb]. unfold when. mstep.
  rewrite (bind_returns _ _ _ _ _
             (on_client_returns _ _ _ _ _
                (abort_sends fuel 0x05040004 c_end eq_refl Hacc))).
  reflexivity.
Qed.

End BlockUploadEnd.

Module BlockUploadData.
Import BlockUploadStream.

(** A data frame that is not the last and arrives in sequence: the read
    returns its bytes [1..8], feeds them to the CRC when the CRC is
    enabled, and sends nothing, unless the frame completes the block: then
    the block is acknowledged and the sequence number starts again. *)
Lemma read_data_frame (fuel : nat) (size : Z) (s : t) (c : SdoClient)
      (cmd : Z) (payload : bytes) (more : list bytes) :
  0 <= size ->
  _done s = false ->
  in_range 8 (blksize s) = true ->
  responses c = (cmd :: payload) :: more ->
  Z.land cmd 0x7F = _ackseq s + 1 ->
  Z.land cmd NO_MORE_BLOCKS = 0 ->
  (_ackseq s + 1 < blksize s ->
   read (S fuel) (Some size) (s, c)
   = (Return (slice 1 8 (cmd :: payload)),
      (mk (BlockUploadStream.size s) (blksize s) (crc_supported s) false
          (pos s + len (slice 1 8 (cmd :: payload)))
          (if crc_supported s
           then crc_hqx (slice 1 8 (cmd :: payload)) (_crc s)
           else _crc s)
          (_server_crc s) (_ackseq s + 1) (closed s),
       set_responses more c)))
  /\ (blksize s <= _ackseq s + 1 ->
      accepts c = true ->
      read (S fuel) (Some size) (s, c)
      = (Return (slice 1 8 (cmd :: payload)),
         (mk (BlockUploadStream.size s) (blksize s) (crc_supported s) false
             (pos s + len (slice 1 8 (cmd :: payload)))
             (if crc_supported s
              then crc_hqx (slice 1 8 (cmd :: payload)) (_crc s)
              else _crc s)
             (_server_crc s)
             (if _ackseq s + 1 =? blksize s then 0 else _ackseq s + 1)
             (closed s),
          after_send
            (block_upload_ack_request (_ackseq s + 1) (blksize s))
            (set_responses more c)))).
Proof.
  intros Hsize Hdone Hblk Hq Hseq Hlast.
  assert (Hne : cmd <> RESPONSE_ABORTED).
  { intros ->. discriminate Hlast. }
  assert (Hrun :
    read (S fuel) (Some size) (s, c)
    = bind (when ((blksize s <=? _ackseq s + 1)
                  || truthy (Z.land cmd NO_MORE_BLOCKS))
                 (_ack_block (S fuel)))
           (fun _ =>
              data <-
                (if truthy (Z.land cmd NO_MORE_BLOCKS) then
                   n <- _end_upload (S fuel) ;;
                   let data := slice 1 (8 - n) (cmd :: payload) in
                   update (set_done true) ;;
                   ret data
                 else
                   ret (slice 1 8 (cmd :: payload))) ;;
              s <- self ;;
              when (crc_supported s)
                   (update (set_crc (crc_hqx data (_crc s))) ;;
                    s <- self ;;
                    when (_done s)
                         (if negb (match _server_crc s with
                                   | Some v => v =? _crc s
                                   | None => false
                                   end)
                          then
                            on_client (abort (S fuel) 0x05040004) ;;
                            raise (SdoCommunicationError "CRC is not OK")
                          else ret tt)) ;;
              update (fun s => set_pos (pos s + len data) s) ;;
              ret data)
           (set_ackseq (_ackseq s + 1) s, set_responses more c)).
  { cbn [read]. rewrite bind_self. cbn [fst]. rewrite Hdone.
    replace (size <? 0) with false by (symmetry; apply Z.ltb_ge; lia).
    unfold read_frame.
    rewrite (bind_returns _ _ _ _ _
               (try_except_returns _ _ _ _ _
                  (on_client_returns _ s _ _ _
                     (read_response_frame c _ more cmd Hq eq_refl Hne)))).
    rewrite (bind_returns _ _ _ _ _
               (unpack_command_at (cmd :: payload) cmd _ eq_refl)).
    rewrite bind_self. cbn [fst]. rewrite Hseq, Z.eqb_refl.
    mstep. cbn [fst].
    destruct s; reflexivity. }
  rewrite Hrun. rewrite Hlast. change (truthy 0) with false.
  rewrite orb_false_r. cbv iota.
  destruct s as [sz bs cs dn ps cr sc aq cl].
  cbn [_done blksize _ackseq crc_supported pos _crc _server_crc closed
       BlockUploadStream.size set_ackseq] in *.
  subst dn. split.
  - intros Hlt.
    replace (bs <=? aq + 1) with false by (symmetry; apply Z.leb_gt; lia).
    unfold when at 1. mstep. cbn [fst crc_supported].
    destruct cs; unfold when; mstep; reflexivity.
  - intros Hge Ha.
    replace (bs <=? aq + 1) with true by (symmetry; apply Z.leb_le; lia).
    unfold when at 1.
    assert (Hack :
      _ack_block (S fuel)
        (mk sz bs cs false ps cr sc (aq + 1) cl, set_responses more c)
      = (Return tt,
         (mk sz bs cs false ps cr sc (if aq + 1 =? bs then 0 else aq + 1) cl,
          after_send (block_upload_ack_request (aq + 1) bs)
                     (set_responses more c)))).
    { unfold _ack_block. rewrite bind_self. cbn [fst].
      rewrite (bind_returns _ _ _ _ _
                 (setitem_fresh_0
                    (Z.lor REQUEST_BLOCK_UPLOAD BLOCK_TRANSFER_RESPONSE)
                    _ eq_refl)).
      unfold setitem. cbn [_ackseq blksize].
      replace (in_range 8 (aq + 1)) with true
        by (symmetry; rewrite <- Hseq; apply land_7F_byte).
      rewrite bind_ret. rewrite Hblk. rewrite bind_ret.
      rewrite (bind_returns _ _ _ _ _
                 (on_client_returns _ _ _ _ _
                    (send_request_accepted fuel _ (set_responses more c)
                       ltac:(destruct c; exact Ha)))).
      unfold when. destruct (aq + 1 =? bs); reflexivity. }
    rewrite (bind_returns _ _ _ _ _ Hack). mstep. cbn [fst crc_supported].
    destruct cs; unfold when; mstep; reflexivity.
Qed.

End BlockUploadData.

(** ** Block upload: a read that finds nothing queued *)

Module BlockUploadTimeout.
Import BlockUploadStream.

(** [_retransmit] when the frame that answers the acknowledgment is the
    next in sequence: the acknowledgment is sent, the frame is accepted
    and [_ackseq] moves on to it. *)
Lemma retransmit_in_sequence (fuel : nat) (s : t) (c : SdoClient)
      (cmd : Z) (payload : bytes) (more : list bytes) :
  in_range 8 (blksize s) = true ->
  in_range 8 (_ackseq s) = true ->
  _ackseq s <> blksize s ->
  0 <= pause_before_send c < RESPONSE_TIMEOUT c ->
  accepts c = true ->
  responses c ++ next_replies c = (cmd :: payload) :: more ->
  cmd <> RESPONSE_ABORTED ->
  Z.land cmd 0x7F = _ackseq s + 1 ->
  _retransmit (S fuel) (s, c)
  = (Return (cmd :: payload),
     (set_ackseq (_ackseq s + 1) s,
      set_responses more
        (after_send (block_upload_ack_request (_ackseq s) (blksize s)) c))).
Proof.
  intros Hblk Haq Hneq Hpause Ha Hq Hne Hseq.
  unfold _retransmit. rewrite bind_unfold.
  change (on_client get (s, c)) with (Return c, (s, c)). cbv iota beta.
  assert (Hack : _ack_block (S fuel) (s, c)
                 = (Return tt,
                    (s, after_send
                          (block_upload_ack_request (_ackseq s) (blksize s))
                          c))).
  { unfold _ack_block. rewrite bind_self. cbn [fst].
    rewrite (bind_returns _ _ _ _ _
               (setitem_fresh_0
                  (Z.lor REQUEST_BLOCK_UPLOAD BLOCK_TRANSFER_RESPONSE)
                  _ eq_refl)).
    unfold setitem. rewrite Haq, bind_ret, Hblk, bind_ret.
    rewrite (bind_returns _ _ _ _ _
               (on_client_returns _ s _ _ _
                  (send_request_accepted fuel _ c Ha))).
    unfold when. apply Z.eqb_neq in Hneq. now rewrite Hneq. }
  rewrite (bind_returns _ _ _ _ _ Hack).
  set (c1 := after_send (block_upload_ack_request (_ackseq s) (blksize s)) c).
  cbn [_retransmit_loop]. rewrite bind_unfold.
  change (on_client get (s, c1)) with (Return c1, (s, c1)). cbv iota beta.
  assert (Hclk : (clock c1 <? clock c + RESPONSE_TIMEOUT c) = true).
  { apply Z.ltb_lt. unfold c1, after_send. cbn [clock]. lia. }
  rewrite Hclk.
  assert (Hq1 : responses c1 = (cmd :: payload) :: more) by exact Hq.
  rewrite (bind_returns _ _ _ _ _
             (on_client_returns _ s _ _ _
                (read_response_frame c1 _ more cmd Hq1 eq_refl Hne))).
  rewrite (bind_returns _ _ _ _ _
             (unpack_command_at (cmd :: payload) cmd _ eq_refl)).
  rewrite bind_self. cbn [fst]. rewrite Hseq, Z.eqb_refl.
  rewrite bind_update. reflexivity.
Qed.

(** When nothing is queued at a read, the code recovers two frames and
    returns the second: [_retransmit] accepts the frame of sequence
    [_ackseq + 1], [read] takes it for out of sequence because [_ackseq]
    has moved on, acknowledges it and goes on to the frame after it.  The
    bytes of the first frame are neither returned nor fed to the CRC. *)
Lemma read_after_timeout_drops_a_frame (fuel : nat) (size : Z) (s : t)
      (c : SdoClient) (cmd1 : Z) (payload1 : bytes) (cmd2 : Z)
      (payload2 : bytes) (more : list bytes) :
  0 <= size ->
  _done s = false ->
  in_range 8 (blksize s) = true ->
  0 <= _ackseq s ->
  _ackseq s + 2 < blksize s ->
  responses c = [] ->
  0 <= pause_before_send c < RESPONSE_TIMEOUT c ->
  accepts c = true ->
  next_replies c = (cmd1 :: payload1) :: (cmd2 :: payload2) :: more ->
  cmd1 <> RESPONSE_ABORTED ->
  Z.land cmd1 0x7F = _ackseq s + 1 ->
  Z.land cmd2 0x7F = _ackseq s + 2 ->
  Z.land cmd2 NO_MORE_BLOCKS = 0 ->
  accepts
    (set_responses ((cmd2 :: payload2) :: more)
       (after_send (block_upload_ack_request (_ackseq s) (blksize s))
          (set_clock (clock c + RESPONSE_TIMEOUT c) c))) = true ->
  read (S fuel) (Some size) (s, c)
  = (Return (slice 1 8 (cmd2 :: payload2)),
     (mk (BlockUploadStream.size s) (blksize s) (crc_supported s) false
         (pos s + len (slice 1 8 (cmd2 :: payload2)))
         (if crc_supported s
          then crc_hqx (slice 1 8 (cmd2 :: payload2)) (_crc s)
          else _crc s)
         (_server_crc s) (_ackseq s + 2) (closed s),
      set_responses
        (more
         ++ next_replies
              (set_responses ((cmd2 :: payload2) :: more)
                 (after_send
                    (block_upload_ack_request (_ackseq s) (blksize s))
                    (set_clock (clock c + RESPONSE_TIMEOUT c) c))))
        (after_send
           (block_upload_ack_request (_ackseq s + 1) (blksize s))
           (set_responses ((cmd2 :: payload2) :: more)
              (after_send
                 (block_upload_ack_request (_ackseq s) (blksize s))
                 (set_clock (clock c + RESPONSE_TIMEOUT c) c)))))).
Proof.
  intros Hsize Hdone Hblk Haq Hroom Hq Hpause Ha Hr Hne1 Hseq1 Hseq2 Hlast Ha2.
  set (c0 := set_clock (clock c + RESPONSE_TIMEOUT c) c).
  set (ack1 := block_upload_ack_request (_ackseq s) (blksize s)) in *.
  set (c1 := set_responses ((cmd2 :: payload2) :: more) (after_send ack1 c0))
    in *.
  set (s1 := set_ackseq (_ackseq s + 1) s).
  assert (Hblk' : 0 <= blksize s < 256)
    by (apply in_range_spec in Hblk; change (2 ^ 8) with 256 in Hblk; lia).
  assert (Hne2 : cmd2 <> RESPONSE_ABORTED).
  { intros ->. discriminate Hlast. }
  assert (Hr1 : _retransmit (S fuel) (s, c0)
                = (Return (cmd1 :: payload1), (s1, c1))).
  { apply retransmit_in_sequence; try assumption.
    - apply in_range_spec. change (2 ^ 8) with 256. lia.
    - lia.
    - change (responses c ++ next_replies c
              = (cmd1 :: payload1) :: (cmd2 :: payload2) :: more).
      rewrite Hq. exact Hr. }
  assert (Hr2 : _retransmit (S fuel) (s1, c1)
                = (Return (cmd2 :: payload2),
                   (set_ackseq (_ackseq s + 2) s1,
                    set_responses (more ++ next_replies c1)
                      (after_send
                         (block_upload_ack_request (_ackseq s + 1) (blksize s))
                         c1)))).
  { replace (_ackseq s + 2) with (_ackseq s1 + 1)
      by (unfold s1; destruct s; cbn; lia).
    replace (block_upload_ack_request (_ackseq s + 1) (blksize s))
      with (block_upload_ack_request (_ackseq s1) (blksize s1))
      by (unfold s1; destruct s; reflexivity).
    apply retransmit_in_sequence.
    - unfold s1. destruct s; exact Hblk.
    - unfold s1. destruct s. cbn in *. apply in_range_spec.
      change (2 ^ 8) with 256. lia.
    - unfold s1. destruct s. cbn in *. lia.
    - exact Hpause.
    - exact Ha2.
    - unfold c1. cbn [responses set_responses]. reflexivity.
    - exact Hne2.
    - unfold s1. destruct s. cbn in *. lia. }
  cbn [read]. rewrite bind_self. cbn [fst]. rewrite Hdone.
  replace (size <? 0) with false by (symmetry; apply Z.ltb_ge; lia).
  unfold read_frame.
  assert (Hfirst :
    try_except (on_client read_response)
      (fun e =>
         match e with
         | SdoCommunicationError _ => Some (_retransmit (S fuel))
         | _ => None
         end) (s, c)
    = (Return (cmd1 :: payload1), (s1, c1))).
  { unfold try_except.
    rewrite (on_client_raises _ s _ _ _ (read_response_timeout c Hq)).
    exact Hr1. }
  rewrite (bind_returns _ _ _ _ _ Hfirst).
  rewrite (bind_returns _ _ _ _ _
             (unpack_command_at (cmd1 :: payload1) cmd1 _ eq_refl)).
  rewrite bind_self. cbn [fst]. rewrite Hseq1.
  replace (_ackseq s + 1 =? _ackseq s1 + 1) with false
    by (symmetry; apply Z.eqb_neq; unfold s1; destruct s; cbn; lia).
  mstep.
  rewrite (bind_returns _ _ _ _ _ Hr2).
  rewrite bind_bind.
  rewrite (bind_returns _ _ _ _ _
             (unpack_command_at (cmd2 :: payload2) cmd2 _ eq_refl)).
  mstep. cbn [fst]. rewrite Hlast. change (truthy 0) with false.
  rewrite orb_false_r.
  unfold s1. destruct s as [sz bs cs dn ps cr sc aq cl].
  cbn [_done blksize _ackseq crc_supported pos _crc _server_crc closed
       BlockUploadStream.size set_ackseq] in *.
  subst dn.
  replace (bs <=? aq + 2) with false by (symmetry; apply Z.leb_gt; lia).
  unfold when at 1. mstep. cbn [fst crc_supported].
  destruct cs; unfold when; mstep; reflexivity.
Qed.

End BlockUploadTimeout.

(** Block upload with CRC enabled, as far as the frames are read in
    sequence.  Whatever a read returns is what went into the CRC, so the
    accumulated CRC is [crc_hqx], that is CRC-16-CCITT, of the bytes
    returned so far.  On the last data frame the [n] padding bytes named
    by the END frame stay out of the data and of the CRC; a server CRC
    (END-frame bytes 1..3) equal to the computed one completes the read, a
    different one makes the client send abort 0x05040004 and raise
    SdoCommunicationError.  What a read returns for a frame that is not
    the last is [BlockUploadData.read_data_frame]. *)
Theorem block_upload_crc_in_sequence
        (s : BlockUploadStream.t) (prefix : bytes) :
  BlockUploadStream.crc_supported s = true ->
  BlockUploadStream._crc s = crc_hqx prefix 0 ->
  (forall fuel size c data s' c',
      BlockUploadStream.read fuel size (s, c) = (Return data, (s', c')) ->
      BlockUploadStream.crc_supported s' = true
      /\ BlockUploadStream._crc s' = crc_hqx (prefix ++ data) 0
      /\ BlockUploadStream.pos s' = BlockUploadStream.pos s + len data)
  /\ (forall stream,
         Forall (fun b => 0 <= b < 256) stream ->
         crc_hqx stream 0 = crc16_ccitt stream)
  /\ (forall fuel size c cmd payload more ecmd crc_lo crc_hi etail more2
             seqno n data server_crc,
         seqno = Z.land cmd 0x7F ->
         n = Z.land (Z.shiftr ecmd 2) 0x7 ->
         data = slice 1 (8 - n) (cmd :: payload) ->
         server_crc = crc_lo + 256 * crc_hi ->
         0 <= size ->
         BlockUploadStream._done s = false ->
         in_range 8 (BlockUploadStream.blksize s) = true ->
         0 <= BlockUploadStream._ackseq s ->
         responses c = (cmd :: payload) :: more ->
         seqno = BlockUploadStream._ackseq s + 1 ->
         Z.land cmd NO_MORE_BLOCKS <> 0 ->
         accepts c = true ->
         more ++ next_replies c
         = (ecmd :: crc_lo :: crc_hi :: etail) :: more2 ->
         Z.land ecmd 0xE0 = RESPONSE_BLOCK_UPLOAD ->
         Z.land ecmd 0x3 = END_BLOCK_TRANSFER ->
         (server_crc = crc_hqx (prefix ++ data) 0 ->
          BlockUploadStream.read (S fuel) (Some size) (s, c)
          = (Return data,
             (BlockUploadStream.mk
                (BlockUploadStream.size s) (BlockUploadStream.blksize s)
                true true (BlockUploadStream.pos s + len data)
                (crc_hqx (prefix ++ data) 0) (Some server_crc)
                (if seqno =? BlockUploadStream.blksize s then 0 else seqno)
                (BlockUploadStream.closed s),
              set_responses more2
                (after_send
                   (block_upload_ack_request
                      seqno (BlockUploadStream.blksize s)) c))))
         /\ (server_crc <> crc_hqx (prefix ++ data) 0 ->
             accepts
               (set_responses more2
                  (after_send
                     (block_upload_ack_request
                        seqno (BlockUploadStream.blksize s)) c)) = true ->
             BlockUploadStream.read (S fuel) (Some size) (s, c)
             = (Raise (SdoCommunicationError "CRC is not OK"),
                (BlockUploadStream.mk
                   (BlockUploadStream.size s) (BlockUploadStream.blksize s)
                   true true (BlockUploadStream.pos s)
                   (crc_hqx (prefix ++ data) 0) (Some server_crc)
                   (if seqno =? BlockUploadStream.blksize s then 0 else seqno)
                   (BlockUploadStream.closed s),
                 after_send (abort_frame 0x05040004)
                   (set_responses more2
                      (after_send
                         (block_upload_ack_request
                            seqno (BlockUploadStream.blksize s)) c)))))).
Proof.
  intros Hsup Hcrc. split; [|split].
  - intros fuel size c data s' c' H.
    eapply BlockUploadCrc.read_accumulates; eauto.
  - apply crc_hqx_is_crc16_ccitt.
  - intros fuel size c cmd payload more ecmd crc_lo crc_hi etail more2
           seqno n data server_crc -> -> -> -> Hsize Hdone Hblk Hack Hq Hseq
           Hlast Ha Hend Hclass Hsub.
    rewrite crc_hqx_app, <- Hcrc.
    exact (BlockUploadEnd.read_last_frame
             fuel size s c cmd payload more ecmd crc_lo crc_hi etail more2
             Hsize Hdone Hsup Hblk Hack Hq Hseq Hlast Ha Hend Hclass Hsub).
Qed.

(** Scenario 4, second data frame: 14 bytes with a matching CRC, and the
    same exchange with a wrong server CRC. *)
Lemma scenario_4_last_frame :
  BlockUploadStream.read 1 (Some 7)
    (BlockUploadStream.mk (Some 14) 127 true false 7
                          (crc_hqx [1; 2; 3; 4; 5; 6; 7] 0) None 1 false,
     mkClient 300 1 0 [[0x82; 8; 9; 10; 11; 12; 13; 14]] []
              [Deliver [[0xC1; 0x92; 0x9B; 0; 0; 0; 0; 0]]] 0)
  = (Return [8; 9; 10; 11; 12; 13; 14],
     (BlockUploadStream.mk (Some 14) 127 true true 14 0x9B92 (Some 0x9B92)
                           2 false,
      mkClient 300 1 0 [] [[0xA2; 2; 127; 0; 0; 0; 0; 0]] [] 0))
  /\ BlockUploadStream.read 1 (Some 7)
       (BlockUploadStream.mk (Some 14) 127 true false 7
                             (crc_hqx [1; 2; 3; 4; 5; 6; 7] 0) None 1 false,
        mkClient 300 1 0 [[0x82; 8; 9; 10; 11; 12; 13; 14]] []
                 [Deliver [[0xC1; 0x93; 0x9B; 0; 0; 0; 0; 0]]] 0)
     = (Raise (SdoCommunicationError "CRC is not OK"),
        (BlockUploadStream.mk (Some 14) 127 true true 7 0x9B92 (Some 0x9B93)
                              2 false,
         mkClient 300 1 0 []
                  [[0xA2; 2; 127; 0; 0; 0; 0; 0];
                   [0x80; 0; 0; 0; 0x04; 0x00; 0x04; 0x05]] [] 0)).
Proof.
  split.
  - exact (proj1 (proj2 (proj2
             (block_upload_crc_in_sequence
                (BlockUploadStream.mk (Some 14) 127 true false 7
                   (crc_hqx [1; 2; 3; 4; 5; 6; 7] 0) None 1 false)
                [1; 2; 3; 4; 5; 6; 7] eq_refl eq_refl))
             0%nat 7
             (mkClient 300 1 0 [[0x82; 8; 9; 10; 11; 12; 13; 14]] []
                       [Deliver [[0xC1; 0x92; 0x9B; 0; 0; 0; 0; 0]]] 0)
             0x82 [8; 9; 10; 11; 12; 13; 14] [] 0xC1 0x92 0x9B
             [0; 0; 0; 0; 0] [] 2 0 [8; 9; 10; 11; 12; 13; 14] 0x9B92
             eq_refl eq_refl eq_refl eq_refl ltac:(lia) eq_refl eq_refl
             ltac:(cbn; lia) eq_refl eq_refl ltac:(discriminate) eq_refl
             eq_refl eq_refl eq_refl) ltac:(vm_compute; reflexivity)).
  - exact (proj2 (proj2 (proj2
             (block_upload_crc_in_sequence
                (BlockUploadStream.mk (Some 14) 127 true false 7
                   (crc_hqx [1; 2; 3; 4; 5; 6; 7] 0) None 1 false)
                [1; 2; 3; 4; 5; 6; 7] eq_refl eq_refl))
             0%nat 7
             (mkClient 300 1 0 [[0x82; 8; 9; 10; 11; 12; 13; 14]] []
                       [Deliver [[0xC1; 0x93; 0x9B; 0; 0; 0; 0; 0]]] 0)
             0x82 [8; 9; 10; 11; 12; 13; 14] [] 0xC1 0x93 0x9B
             [0; 0; 0; 0; 0] [] 2 0 [8; 9; 10; 11; 12; 13; 14] 0x9B93
             eq_refl eq_refl eq_refl eq_refl ltac:(lia) eq_refl eq_refl
             ltac:(cbn; lia) eq_refl eq_refl ltac:(discriminate) eq_refl
             eq_refl eq_refl eq_refl)
             ltac:(vm_compute; discriminate) eq_refl).
Defined.

(** C6: the code on a block upload whose first transmission is lost.  The
    object at 0x1008:0 is 21 bytes with CRC-16-CCITT [0xCDF0], which is
    the CRC the server sends in its END frame.  When the three data frames
    follow the START request the upload returns the 21 bytes and the
    client CRC is [0xCDF0].  When nothing follows the START request and
    the server sends the block again on the acknowledgment of sequence 0,
    the first [read_response] of [read] times out and [_retransmit]
    accepts frame 1 and sets [_ackseq] to 1; [read] then compares sequence
    1 with [_ackseq + 1], takes the frame for out of sequence and calls
    [_retransmit] once more, which acknowledges sequence 1 and replaces
    the frame by frame 2.  The first read returns bytes 8..14; bytes 1..7
    are never returned and never reach the CRC, and at the end the client
    answers the server's correct CRC with abort 0x05040004 and raises
    SdoCommunicationError.  For any frames that arrive this way see
    [BlockUploadTimeout.read_after_timeout_drops_a_frame]. *)
Theorem block_upload_timeout_drops_recovered_frame (fuel : nat) :
  crc16_ccitt lost_block_object = 0xCDF0
  /\ block_upload_with_stream (5 + fuel) 0x1008 0
       (default_client whole_block_bus)
     = (Return (lost_block_object,
                BlockUploadStream.mk (Some 21) 127 true true 21 0xCDF0
                                     (Some 0xCDF0) 3 false),
        mkClient 300 1 0 []
                 [[0xA4; 0x08; 0x10; 0x00; 127; 0; 0; 0];
                  [0xA3; 0; 0; 0; 0; 0; 0; 0];
                  [0xA2; 3; 127; 0; 0; 0; 0; 0]] [] 0)
  /\ block_upload_first_read (2 + fuel) 0x1008 0
       (default_client lost_block_bus)
     = (Return ([8; 9; 10; 11; 12; 13; 14],
                BlockUploadStream.mk (Some 21) 127 true false 7
                                     (crc_hqx [8; 9; 10; 11; 12; 13; 14] 0)
                                     None 2 false),
        mkClient 300 1 0 [[0x83; 15; 16; 17; 18; 19; 20; 21]]
                 [[0xA4; 0x08; 0x10; 0x00; 127; 0; 0; 0];
                  [0xA3; 0; 0; 0; 0; 0; 0; 0];
                  [0xA2; 0; 127; 0; 0; 0; 0; 0];
                  [0xA2; 1; 127; 0; 0; 0; 0; 0]]
                 [Deliver [lost_block_end]] 300)
  /\ block_upload_with_stream (4 + fuel) 0x1008 0
       (default_client lost_block_bus)
     = (Raise (SdoCommunicationError "CRC is not OK"),
        mkClient 300 1 0 []
                 [[0xA4; 0x08; 0x10; 0x00; 127; 0; 0; 0];
                  [0xA3; 0; 0; 0; 0; 0; 0; 0];
                  [0xA2; 0; 127; 0; 0; 0; 0; 0];
                  [0xA2; 1; 127; 0; 0; 0; 0; 0];
                  [0xA2; 3; 127; 0; 0; 0; 0; 0];
                  [0x80; 0; 0; 0; 0x04; 0x00; 0x04; 0x05]] [] 300).
Proof. repeat split; vm_compute; reflexivity. Qed.

(** * Block download: the block acknowledgment *)

(** The message of the mismatch. *)
Lemma block_ack_mismatch
      (fuel : nat) (s : BlockDownloadStream.t) (c : SdoClient)
      (cmd ackseq blksize : Z) (tail : bytes) (more : list bytes) :
  responses c = (cmd :: ackseq :: blksize :: tail) :: more ->
  Z.land cmd 0xE0 = RESPONSE_BLOCK_DOWNLOAD ->
  Z.land cmd 0x3 = BLOCK_TRANSFER_RESPONSE ->
  ackseq <> BlockDownloadStream._blksize s ->
  accepts c = true ->
  BlockDownloadStream._block_ack (S fuel) (s, c)
  = (Raise (SdoCommunicationError
              (fmt_d ackseq ++ " of "
               ++ fmt_d (BlockDownloadStream._blksize s)
               ++ " sequences were received. "
               ++ "Retransmission is not supported yet.")),
     (s, after_send (abort_frame 0x05040003) (set_responses more c))).
Proof.
  intros Hq Hclass Hsub Hack Ha.
  assert (Hne : cmd <> RESPONSE_ABORTED)
    by (eapply class_not_aborted; [exact Hclass | discriminate]).
  unfold BlockDownloadStream._block_ack.
  rewrite (bind_returns _ _ _ _ _
             (on_client_returns _ s _ _ _
                (read_response_frame c _ more cmd Hq eq_refl Hne))).
  rewrite (bind_returns _ _ _ _ _
             (unpack_command_at (cmd :: ackseq :: blksize :: tail) cmd _
                eq_refl)).
  unfold unpack_from_uint, len. cbn [List.length].
  replace (1 + Z.of_nat 1 <=? _) with true by (symmetry; apply Z.leb_le; lia).
  replace (2 + Z.of_nat 1 <=? _) with true by (symmetry; apply Z.leb_le; lia).
  change (slice 1 (1 + Z.of_nat 1) (cmd :: ackseq :: blksize :: tail))
    with [ackseq].
  change (slice 2 (2 + Z.of_nat 1) (cmd :: ackseq :: blksize :: tail))
    with [blksize].
  cbn [le_value]. mstep. cbn [fst].
  rewrite Hclass, Hsub, !Z.eqb_refl. cbn [negb].
  replace (ackseq + 256 * 0) with ackseq by lia.
  apply Z.eqb_neq in Hack. rewrite Hack. cbn [negb].
  assert (Ha' : accepts (set_responses more c) = true)
    by (destruct c; exact Ha).
  rewrite (bind_returns _ _ _ _ _
             (on_client_returns _ s _ _ _
                (abort_sends fuel 0x05040003 _ eq_refl Ha'))).
  reflexivity.
Qed.

(** C7: a block-download acknowledgment (class RESPONSE_BLOCK_DOWNLOAD,
    sub-command 2) whose [ackseq] differs from the expected block size
    makes the client send the abort frame with code 0x05040003 and
    nothing else, and raise SdoCommunicationError.  This holds for
    [_block_ack] in any state, and for the [write] that sends the last
    data frame of a block: when [_seqno + 1] frames make up the block,
    the client sends that data frame, then the abort, and no data frame
    again. *)
Theorem block_ack_mismatch_aborts
        (fuel : nat) (cmd ackseq blksize : Z) (tail : bytes)
        (more : list bytes) :
  Z.land cmd 0xE0 = RESPONSE_BLOCK_DOWNLOAD ->
  Z.land cmd 0x3 = BLOCK_TRANSFER_RESPONSE ->
  (forall s c,
      responses c = (cmd :: ackseq :: blksize :: tail) :: more ->
      ackseq <> BlockDownloadStream._blksize s ->
      accepts c = true ->
      BlockDownloadStream._block_ack (S fuel) (s, c)
      = (Raise (SdoCommunicationError
                  (fmt_d ackseq ++ " of "
                   ++ fmt_d (BlockDownloadStream._blksize s)
                   ++ " sequences were received. "
                   ++ "Retransmission is not supported yet.")),
         (s, after_send (abort_frame 0x05040003) (set_responses more c))))
  /\ (forall s c b,
         BlockDownloadStream._done s = false ->
         List.length b = 7%nat ->
         match BlockDownloadStream.size s with
         | Some n => BlockDownloadStream.pos s + 7 < n
         | None => True
         end ->
         BlockDownloadStream._blksize s = BlockDownloadStream._seqno s + 1 ->
         in_range 8 (BlockDownloadStream._seqno s + 1) = true ->
         accepts c = true ->
         responses c ++ next_replies c
         = (cmd :: ackseq :: blksize :: tail) :: more ->
         ackseq <> BlockDownloadStream._blksize s ->
         accepts (after_send ((BlockDownloadStream._seqno s + 1) :: b) c)
         = true ->
         BlockDownloadStream.write (S fuel) b (s, c)
         = (Raise (SdoCommunicationError
                     (fmt_d ackseq ++ " of "
                      ++ fmt_d (BlockDownloadStream._blksize s)
                      ++ " sequences were received. "
                      ++ "Retransmission is not supported yet.")),
            (BlockDownloadStream.mk
               (BlockDownloadStream.size s)
               (BlockDownloadStream.pos s + 7)
               false
               (BlockDownloadStream._seqno s + 1)
               (if BlockDownloadStream.crc_supported s
                then crc_hqx b (BlockDownloadStream._crc s)
                else BlockDownloadStream._crc s)
               (BlockDownloadStream._last_bytes_sent s)
               (BlockDownloadStream._blksize s)
               (BlockDownloadStream.crc_supported s)
               (BlockDownloadStream.closed s),
             after_send (abort_frame 0x05040003)
               (set_responses more
                  (after_send ((BlockDownloadStream._seqno s + 1) :: b) c))))).
Proof.
  intros Hclass Hsub. split.
  - intros s c Hq Hack Ha.
    exact (block_ack_mismatch fuel s c cmd ackseq blksize tail more
             Hq Hclass Hsub Hack Ha).
  - intros s c b Hdone Hlen Hsize Hblk Hseq Ha Hq Hack Ha2.
    assert (HlenZ : len b = 7) by (unfold len; rewrite Hlen; reflexivity).
    assert (Hdata : slice 0 7 b = b).
    { unfold slice. change (Z.to_nat 0) with 0%nat. cbn [skipn].
      change (Z.to_nat (7 - 0)) with 7%nat. rewrite <- Hlen.
      apply firstn_all. }
    unfold BlockDownloadStream.write. mstep. cbn [fst].
    rewrite Hdone, Hdata, HlenZ.
    assert (Hnotlast :
              match BlockDownloadStream.size s with
              | Some n => n <=? BlockDownloadStream.pos s + 7
              | None => false
              end = false).
    { destruct (BlockDownloadStream.size s) as [n|]; [|reflexivity].
      apply Z.leb_gt. exact Hsize. }
    rewrite Hnotlast. change (7 <? 7) with false. cbv iota.
    unfold BlockDownloadStream.send. rewrite HlenZ.
    change (negb (7 <=? 7)) with false.
    change (negb false && negb (7 =? 7)) with false. cbv iota.
    mstep. cbn [fst]. unfold when at 1. mstep.
    destruct s as [sz ps dn sq cr lb bs cs cl].
    cbn [BlockDownloadStream._done BlockDownloadStream.size
         BlockDownloadStream.pos BlockDownloadStream._seqno
         BlockDownloadStream._crc BlockDownloadStream._last_bytes_sent
         BlockDownloadStream._blksize BlockDownloadStream.crc_supported
         BlockDownloadStream.closed BlockDownloadStream.set_seqno
         BlockDownloadStream.set_pos BlockDownloadStream.set_crc] in *.
    subst dn bs.
    rewrite (bind_returns _ _ _ _ _ (setitem_fresh_0 (sq + 1) _ Hseq)).
    assert (Hframe : slice_assign 1 (7 + 1) b [sq + 1; 0; 0; 0; 0; 0; 0; 0]
                     = (sq + 1) :: b).
    { unfold slice_assign. change (Z.to_nat 1) with 1%nat.
      change (Z.to_nat (7 + 1)) with 8%nat. cbn [firstn skipn app].
      now rewrite app_nil_r. }
    rewrite Hframe. mstep.
    rewrite (bind_returns _ _ _ _ _
               (on_client_returns _ _ _ _ _
                  (send_request_accepted fuel ((sq + 1) :: b) c Ha))).
    mstep. cbn [fst].
    cbn [BlockDownloadStream._done BlockDownloadStream.size
         BlockDownloadStream.pos BlockDownloadStream._seqno
         BlockDownloadStream._crc BlockDownloadStream._last_bytes_sent
         BlockDownloadStream._blksize BlockDownloadStream.crc_supported
         BlockDownloadStream.closed BlockDownloadStream.set_seqno
         BlockDownloadStream.set_pos BlockDownloadStream.set_crc].
    rewrite Z.leb_refl.
    assert (Hq2 : responses (after_send ((sq + 1) :: b) c)
                  = (cmd :: ackseq :: blksize :: tail) :: more)
      by exact Hq.
    destruct cs; unfold when; mstep;
      cbn [BlockDownloadStream.set_crc BlockDownloadStream._done
           BlockDownloadStream.size BlockDownloadStream.pos
           BlockDownloadStream._seqno BlockDownloadStream._crc
           BlockDownloadStream._last_bytes_sent BlockDownloadStream._blksize
           BlockDownloadStream.crc_supported BlockDownloadStream.closed];
      match goal with
      | |- bind _ _ (?st, _) = _ =>
          rewrite (bind_raises _ _ _ _ _
                     (block_ack_mismatch fuel st _ cmd ackseq blksize tail
                        more Hq2 Hclass Hsub Hack Ha2))
      end;
      reflexivity.
Qed.

(** A block of two frames acknowledged with [ackseq = 1]: at
    [_block_ack], and at the [write] of the second frame. *)
Lemma block_ack_mismatch_example :
  BlockDownloadStream._block_ack 1
    (BlockDownloadStream.mk None 14 false 2 0 0 2 false false,
     mkClient 300 1 0 [[0xA2; 1; 127; 0; 0; 0; 0; 0]] [] [] 0)
  = (Raise (SdoCommunicationError
              "1 of 2 sequences were received. Retransmission is not supported yet."),
     (BlockDownloadStream.mk None 14 false 2 0 0 2 false false,
      mkClient 300 1 0 [] [[0x80; 0; 0; 0; 0x03; 0x00; 0x04; 0x05]] [] 0))
  /\ BlockDownloadStream.write 1 [8; 9; 10; 11; 12; 13; 14]
       (BlockDownloadStream.mk None 7 false 1 0 0 2 false false,
        mkClient 300 1 0 [] [[0x01; 1; 2; 3; 4; 5; 6; 7]]
                 [Deliver [[0xA2; 1; 127; 0; 0; 0; 0; 0]]] 0)
     = (Raise (SdoCommunicationError
                 "1 of 2 sequences were received. Retransmission is not supported yet."),
        (BlockDownloadStream.mk None 14 false 2 0 0 2 false false,
         mkClient 300 1 0 []
                  [[0x01; 1; 2; 3; 4; 5; 6; 7];
                   [0x02; 8; 9; 10; 11; 12; 13; 14];
                   [0x80; 0; 0; 0; 0x03; 0x00; 0x04; 0x05]] [] 0)).
Proof.
  split.
  - exact (proj1 (block_ack_mismatch_aborts
                    0 0xA2 1 127 [0; 0; 0; 0; 0] [] eq_refl eq_refl)
                 (BlockDownloadStream.mk None 14 false 2 0 0 2 false false)
                 (mkClient 300 1 0 [[0xA2; 1; 127; 0; 0; 0; 0; 0]] [] [] 0)
                 eq_refl ltac:(discriminate) eq_refl).
  - exact (proj2 (block_ack_mismatch_aborts
                    0 0xA2 1 127 [0; 0; 0; 0; 0] [] eq_refl eq_refl)
                 (BlockDownloadStream.mk None 7 false 1 0 0 2 false false)
                 (mkClient 300 1 0 [] [[0x01; 1; 2; 3; 4; 5; 6; 7]]
                           [Deliver [[0xA2; 1; 127; 0; 0; 0; 0; 0]]] 0)
                 [8; 9; 10; 11; 12; 13; 14]
                 eq_refl eq_refl I eq_refl eq_refl eq_refl eq_refl
                 ltac:(discriminate) eq_refl).
Defined.

(** * Abort frames *)

Lemma read_response_aborted (response : bytes) (c : SdoClient)
      (more : list bytes) :
  command_of response = Some RESPONSE_ABORTED ->
  8 <= len response ->
  responses c = response :: more ->
  read_response c
  = (Raise (SdoAbortedError (le_value (slice 4 8 response))),
     set_responses more c).
Proof.
  intros Hcmd Hlen Hq. unfold read_response. mstep. rewrite Hq. mstep.
  rewrite (bind_returns _ _ _ _ _
             (unpack_command_at response RESPONSE_ABORTED _ Hcmd)).
  rewrite Z.eqb_refl.
  rewrite (bind_returns _ _ _ _ _
             (unpack_from_uint_ok 4 response 4 _ Hlen)).
  reflexivity.
Qed.

Lemma request_response_aborted (fuel : nat) (request response : bytes)
      (c : SdoClient) (more : list bytes) :
  command_of response = Some RESPONSE_ABORTED ->
  8 <= len response ->
  accepts c = true ->
  next_replies c = response :: more ->
  request_response (S fuel) request c
  = (Raise (SdoAbortedError (le_value (slice 4 8 response))),
     after_exchange request c).
Proof.
  intros Hcmd Hlen Ha Hr.
  unfold request_response. mstep.
  assert (Hflush :
    when (negb match responses c with [] => true | _ :: _ => false end)
         (modify (set_responses [])) c = (Return tt, set_responses [] c)).
  { destruct c as [rt mr pb q snt scr clk]; destruct q; reflexivity. }
  rewrite (bind_returns _ _ _ _ _ Hflush).
  cbn [request_response_loop].
  rewrite (bind_returns _ _ _ _ _
             (send_request_accepted fuel request (set_responses [] c) Ha)).
  unfold try_except.
  assert (Hq : responses (after_send request (set_responses [] c))
               = response :: more).
  { unfold after_send, next_replies in *. destruct c; cbn in *.
    now rewrite Hr. }
  rewrite (read_response_aborted _ _ _ Hcmd Hlen Hq).
  unfold after_exchange, after_send, next_replies in *.
  destruct c; cbn in *. rewrite Hr. reflexivity.
Qed.

(** C8: a received frame whose command byte is RESPONSE_ABORTED makes
    [read_response] raise SdoAbortedError with the little-endian 32-bit
    code of bytes 4..8.  [request_response] lets the error through at
    once, after the one request it sent and without a retry, and so do
    the transfers built on it: an upload ends at its initiate request, an
    expedited download at its only frame, with the descriptor as it
    was. *)
Theorem abort_frame_raises_aborted_error (response : bytes) :
  command_of response = Some RESPONSE_ABORTED ->
  8 <= len response ->
  (forall c more,
      responses c = response :: more ->
      read_response c
      = (Raise (SdoAbortedError (le_value (slice 4 8 response))),
         set_responses more c))
  /\ (forall fuel request c more,
         accepts c = true ->
         next_replies c = response :: more ->
         request_response (S fuel) request c
         = (Raise (SdoAbortedError (le_value (slice 4 8 response))),
            after_exchange request c))
  /\ (forall code b1 b2 b3 tail,
         in_range 32 code = true ->
         response
         = RESPONSE_ABORTED :: b1 :: b2 :: b3 :: le_bytes 4 code ++ tail ->
         le_value (slice 4 8 response) = code)
  /\ (forall fuel index subindex c more,
         in_range 16 index = true ->
         in_range 8 subindex = true ->
         accepts c = true ->
         next_replies c = response :: more ->
         upload (S fuel) index subindex c
         = (Raise (SdoAbortedError (le_value (slice 4 8 response))),
            after_exchange (upload_request index subindex) c))
  /\ (forall fuel s c header n b more,
         WritableStream._exp_header s = Some header ->
         WritableStream.size s = Some n ->
         WritableStream._done s = false ->
         n <= len b <= 4 ->
         accepts c = true ->
         next_replies c = response :: more ->
         WritableStream.write (S fuel) b (s, c)
         = (Raise (SdoAbortedError (le_value (slice 4 8 response))),
            (s, after_exchange (header ++ ljust 4 b) c))).
Proof.
  intros Hcmd Hlen. split; [|split; [|split; [|split]]].
  - intros c more Hq. exact (read_response_aborted response c more Hcmd Hlen Hq).
  - intros fuel request c more Ha Hr.
    exact (request_response_aborted fuel request response c more
             Hcmd Hlen Ha Hr).
  - intros code b1 b2 b3 tail Hc ->.
    change (slice 4 8 (RESPONSE_ABORTED :: b1 :: b2 :: b3
                         :: le_bytes 4 code ++ tail))
      with (le_bytes 4 code).
    now apply le_value_le_bytes_4.
  - intros fuel index subindex c more Hi Hs Ha Hr.
    unfold upload, ReadableStream.__init__. mstep.
    rewrite (bind_returns _ _ _ _ _
               (SDO_STRUCT_pack_into_fresh REQUEST_UPLOAD index subindex c
                  eq_refl Hi Hs)).
    mstep.
    rewrite (bind_raises _ _ _ _ _
               (request_response_aborted fuel _ response c more
                  Hcmd Hlen Ha Hr)).
    reflexivity.
  - intros fuel s c header n b more Hh Hsz Hd Hb Ha Hr.
    unfold WritableStream.write. mstep. cbn [fst]. rewrite Hd, Hh, Hsz.
    replace (len b <? n) with false by (symmetry; apply Z.ltb_ge; lia).
    replace (4 <? len b) with false by (symmetry; apply Z.ltb_ge; lia).
    mstep.
    rewrite (bind_raises _ _ _ _ _
               (on_client_raises _ s _ _ _
                  (request_response_aborted fuel _ response c more
                     Hcmd Hlen Ha Hr))).
    reflexivity.
Qed.

(** Scenario 5: the expedited download of [42] to 0x1000:0 sends
    [2F 00 10 00 42 00 00 00]; the response [80 00 10 00 02 00 01 06]
    surfaces as SdoAbortedError(0x06010002). *)
Lemma scenario_5_server_abort :
  WritableStream.write 1 [0x42]
    (WritableStream.mk (Some 1) 0 0 (Some [0x2F; 0x00; 0x10; 0x00]) false,
     default_client
       [Deliver [[0x80; 0x00; 0x10; 0x00; 0x02; 0x00; 0x01; 0x06]]])
  = (Raise (SdoAbortedError 0x06010002),
     (WritableStream.mk (Some 1) 0 0 (Some [0x2F; 0x00; 0x10; 0x00]) false,
      mkClient 300 1 0 [] [[0x2F; 0x00; 0x10; 0x00; 0x42; 0; 0; 0]] [] 0)).
Proof.
  exact (proj2 (proj2 (proj2 (proj2
           (abort_frame_raises_aborted_error
              [0x80; 0x00; 0x10; 0x00; 0x02; 0x00; 0x01; 0x06]
              eq_refl ltac:(cbn; lia)))))
           0%nat
           (WritableStream.mk (Some 1) 0 0 (Some [0x2F; 0x00; 0x10; 0x00])
                              false)
           (default_client
              [Deliver [[0x80; 0x00; 0x10; 0x00; 0x02; 0x00; 0x01; 0x06]]])
           [0x2F; 0x00; 0x10; 0x00] 1 [0x42] []
           eq_refl eq_refl eq_refl ltac:(cbn; lia) eq_refl eq_refl).
Defined.

(** The descriptor of scenario 5 is the one [WritableStream.__init__]
    builds for one byte at 0x1000:0. *)
Example scenario_5_descriptor :
  WritableStream.__init__ 0 0x1000 0 (Some 1) false (default_client [])
  = (Return (WritableStream.mk (Some 1) 0 0 (Some [0x2F; 0x00; 0x10; 0x00])
                               false),
     default_client []).
Proof. reflexivity. Qed.

(** [read_response] compares the whole command byte with RESPONSE_ABORTED:
    a frame of class 4 with any of the low five bits set is handed to the
    caller as an ordinary response. *)
Remark class_4_frame_with_low_bits_is_returned :
  read_response
    (mkClient 300 1 0 [[0x81; 0x00; 0x10; 0x00; 0x02; 0x00; 0x01; 0x06]]
              [] [] 0)
  = (Return [0x81; 0x00; 0x10; 0x00; 0x02; 0x00; 0x01; 0x06],
     mkClient 300 1 0 [] [] [] 0).
Proof. reflexivity. Qed.

(** * Expedited download: short writes *)

(** C9: on an expedited download descriptor that is not done, a write of
    fewer bytes than the declared size returns 0, sends nothing and leaves
    the descriptor as it was; a later write of the complete value is sent
    in one frame. *)
Theorem short_expedited_write_changes_nothing
        (fuel : nat) (s : WritableStream.t) (c : SdoClient)
        (header b : bytes) (n : Z) :
  WritableStream._exp_header s = Some header ->
  WritableStream.size s = Some n ->
  WritableStream._done s = false ->
  len b < n ->
  WritableStream.write fuel b (s, c) = (Return 0, (s, c))
  /\ forall fuel' b' cmd payload more,
      n <= len b' <= 4 ->
      accepts c = true ->
      next_replies c = (cmd :: payload) :: more ->
      Z.land cmd 0xE0 = RESPONSE_DOWNLOAD ->
      bind (WritableStream.write fuel b)
           (fun _ => WritableStream.write (S fuel') b') (s, c)
      = (Return (len b'),
         (WritableStream.mk (Some n) (WritableStream.pos s + len b')
                            (WritableStream._toggle s) (Some header) true,
          after_exchange (header ++ ljust 4 b') c)).
Proof.
  intros Hh Hsz Hd Hlt.
  assert (Hshort : WritableStream.write fuel b (s, c) = (Return 0, (s, c))).
  { unfold WritableStream.write. mstep. cbn [fst]. rewrite Hd, Hh, Hsz.
    replace (len b <? n) with true by (symmetry; apply Z.ltb_lt; lia).
    mstep. reflexivity. }
  split; [exact Hshort|].
  intros fuel' b' cmd payload more Hlen Ha Hr Hclass.
  rewrite (bind_returns _ _ _ _ _ Hshort).
  unfold WritableStream.write. mstep. cbn [fst]. rewrite Hd, Hh, Hsz.
  replace (len b' <? n) with false by (symmetry; apply Z.ltb_ge; lia).
  replace (4 <? len b') with false by (symmetry; apply Z.ltb_ge; lia).
  mstep.
  assert (Hne : cmd <> RESPONSE_ABORTED)
    by (eapply class_not_aborted; [exact Hclass | discriminate]).
  rewrite (bind_returns _ _ _ _ _
             (on_client_returns _ _ _ _ _
                (request_response_answered fuel' _ _ _ c cmd Ha Hr
                   eq_refl Hne))).
  mstep.
  rewrite (bind_returns _ _ _ _ _
             (unpack_command_at (cmd :: payload) cmd _ eq_refl)).
  rewrite Hclass. cbn [Z.eqb Pos.eqb negb RESPONSE_DOWNLOAD].
  change (Z.shiftl 3 5 =? Z.shiftl 3 5) with true. cbn [negb].
  mstep. destruct s as [sz ps tg eh dn]. cbn in Hh, Hsz, Hd. subst.
  reflexivity.
Qed.

(** A 4-byte expedited descriptor handed 2 bytes, then the 4 bytes. *)
Lemma short_write_example :
  WritableStream.write 0 [1; 2]
    (WritableStream.mk (Some 4) 0 0 (Some [0x23; 0x00; 0x14; 0x02]) false,
     default_client [Deliver [[0x60; 0x00; 0x14; 0x02; 0; 0; 0; 0]]])
  = (Return 0,
     (WritableStream.mk (Some 4) 0 0 (Some [0x23; 0x00; 0x14; 0x02]) false,
      default_client [Deliver [[0x60; 0x00; 0x14; 0x02; 0; 0; 0; 0]]])).
Proof.
  exact (proj1 (short_expedited_write_changes_nothing
                  0 (WritableStream.mk (Some 4) 0 0
                       (Some [0x23; 0x00; 0x14; 0x02]) false)
                  (default_client
                     [Deliver [[0x60; 0x00; 0x14; 0x02; 0; 0; 0; 0]]])
                  [0x23; 0x00; 0x14; 0x02] [1; 2] 4
                  eq_refl eq_refl eq_refl ltac:(cbn; lia))).
Defined.

(** * Closing a block upload *)

Ltac block_upload_fields :=
  cbn [BlockUploadStream.set_closed BlockUploadStream.set_done
       BlockUploadStream.set_pos BlockUploadStream.set_crc
       BlockUploadStream.set_server_crc BlockUploadStream.set_ackseq
       BlockUploadStream._done BlockUploadStream.closed
       BlockUploadStream.size BlockUploadStream.blksize
       BlockUploadStream.crc_supported BlockUploadStream.pos
       BlockUploadStream._crc BlockUploadStream._server_crc
       BlockUploadStream._ackseq fst snd].

Lemma block_upload_close_closed (f : nat) (s0 : BlockUploadStream.t)
      (c0 : SdoClient) :
  BlockUploadStream.closed s0 = true ->
  BlockUploadStream.close f (s0, c0) = (Return tt, (s0, c0)).
Proof.
  intros H. unfold BlockUploadStream.close. mstep. cbn [fst].
  rewrite H. reflexivity.
Qed.

Lemma block_upload_close_sets_closed (f : nat) (s s' : BlockUploadStream.t)
      (c c' : SdoClient) (r : outcome unit) :
  BlockUploadStream.close f (s, c) = (r, (s', c')) ->
  BlockUploadStream.closed s' = true.
Proof.
  destruct (BlockUploadStream.closed s) eqn:Hc.
  - rewrite block_upload_close_closed by assumption. now intros [= _ <- _].
  - unfold BlockUploadStream.close. mstep. cbn [fst].
    rewrite Hc. mstep. cbn [fst].
    destruct s as [sz bs cs dn ps cr sc aq cl]. cbn in Hc. subst.
    block_upload_fields.
    destruct dn; unfold when.
    + rewrite (bind_returns _ _ _ _ _
                 (setitem_fresh_0
                    (Z.lor REQUEST_BLOCK_UPLOAD END_BLOCK_TRANSFER) _ eq_refl)).
      unfold on_client. cbn [fst snd].
      destruct (send_request f _ c) as [o c1]. now intros [= _ <- _].
    + now intros [= _ <- _].
Qed.

(** C10: closing a block upload sends the END acknowledgment exactly when
    the transfer is done; closing an unfinished one sends nothing, and a
    close of a closed stream does nothing. *)
Theorem block_upload_close_sends_end_iff_done
        (fuel : nat) (s : BlockUploadStream.t) (c : SdoClient) :
  (BlockUploadStream.closed s = false ->
   BlockUploadStream._done s = true ->
   accepts c = true ->
   BlockUploadStream.close (S fuel) (s, c)
   = (Return tt, (BlockUploadStream.set_closed true s,
                  after_send block_upload_end_request c)))
  /\ (BlockUploadStream.closed s = false ->
      BlockUploadStream._done s = false ->
      BlockUploadStream.close fuel (s, c)
      = (Return tt, (BlockUploadStream.set_closed true s, c)))
  /\ (BlockUploadStream.closed s = true ->
      BlockUploadStream.close fuel (s, c) = (Return tt, (s, c)))
  /\ (forall r s' c',
         BlockUploadStream.close fuel (s, c) = (r, (s', c')) ->
         forall fuel',
           BlockUploadStream.close fuel' (s', c') = (Return tt, (s', c'))).
Proof.
  split; [|split; [|split]].
  - intros Hc Hd Ha. unfold BlockUploadStream.close. mstep. cbn [fst].
    rewrite Hc. mstep. cbn [fst].
    destruct s as [sz bs cs dn ps cr sc aq cl]. cbn in Hc, Hd. subst.
    block_upload_fields. unfold when.
    rewrite (bind_returns _ _ _ _ _
               (setitem_fresh_0
                  (Z.lor REQUEST_BLOCK_UPLOAD END_BLOCK_TRANSFER) _ eq_refl)).
    apply on_client_returns. apply send_request_accepted. exact Ha.
  - intros Hc Hd. unfold BlockUploadStream.close. mstep. cbn [fst].
    rewrite Hc. mstep. cbn [fst].
    destruct s as [sz bs cs dn ps cr sc aq cl]. cbn in Hc, Hd. subst.
    reflexivity.
  - apply block_upload_close_closed.
  - intros r s' c' H fuel'. apply block_upload_close_closed.
    eapply block_upload_close_sets_closed. exact H.
Qed.

(** Closing a finished and an unfinished block upload. *)
Lemma block_upload_close_example :
  BlockUploadStream.close 1
    (BlockUploadStream.mk (Some 14) 127 true true 14 0x9B92 (Some 0x9B92)
                          2 false,
     default_client [])
  = (Return tt,
     (BlockUploadStream.mk (Some 14) 127 true true 14 0x9B92 (Some 0x9B92)
                           2 true,
      mkClient 300 1 0 [] [[0xA1; 0; 0; 0; 0; 0; 0; 0]] [] 0))
  /\ BlockUploadStream.close 1
       (BlockUploadStream.mk (Some 14) 127 true false 7 0 None 1 false,
        default_client [])
     = (Return tt,
        (BlockUploadStream.mk (Some 14) 127 true false 7 0 None 1 true,
         default_client [])).
Proof.
  split.
  - exact (proj1 (block_upload_close_sends_end_iff_done
                    0 (BlockUploadStream.mk (Some 14) 127 true true 14 0x9B92
                         (Some 0x9B92) 2 false)
                    (default_client []))
                 eq_refl eq_refl eq_refl).
  - exact (proj1 (proj2 (block_upload_close_sends_end_iff_done
                           1 (BlockUploadStream.mk (Some 14) 127 true false 7
                                0 None 1 false)
                           (default_client [])))
                 eq_refl eq_refl).
Defined.
